(** * p2obp: the night-plan parser ([src/lib/parser.py])

    A shallow embedding of the parsing core of [parser.py] and the
    properties of its three layers: the sectioner [get_file_section], the
    line classifier [get_targets_calibrators_tags] and the assembler
    [parse_night_plan].

    Modelling conventions.
    - A Python [str] is a [string]; a character is a code point below 256
      and is classified as Unicode classifies the Latin-1 block.
    - A Python exception is a value of [exn]; code that can raise returns a
      [result].  Code that mutates local state while it can raise lives in
      the state-and-exception monad [M], where the state reached before a
      [Raise] is kept, as the interpreter keeps it.
    - A [dict] is an association list in insertion order ([dict_set]). *)

From Stdlib Require Import String Ascii ZArith Lia Bool.
From stdpp Require Import base list strings.

Open Scope string_scope.
Open Scope list_scope.
Open Scope nat_scope.

(** ** Exceptions and the exception monad *)

Inductive exn : Set :=
| IndexError | NameError
| FileNotFoundError | IsADirectoryError | NotADirectoryError | PermissionError
| OSError | ValueError | UnicodeDecodeError.

Inductive result (A : Type) : Type :=
| Ok (a : A)
| Raise (e : exn).
Arguments Ok {A} a.
Arguments Raise {A} e.

Definition rbind {A B} (r : result A) (k : A -> result B) : result B :=
  match r with
  | Ok a => k a
  | Raise e => Raise e
  end.

Declare Scope result_scope.
Delimit Scope result_scope with res.
Notation "'let!' x ':=' r 'in' k" := (rbind r (fun x => k))
  (at level 10, x name, r at level 100, k at level 200) : result_scope.

(** [[f(x) for x in l]] where [f] can raise: the first exception ends the
    comprehension. *)
Fixpoint mapR {A B} (f : A -> result B) (l : list A) : result (list B) :=
  match l with
  | [] => Ok []
  | x :: l' =>
      (let! y := f x in let! ys := mapR f l' in Ok (y :: ys))%res
  end.

(** [for x in l: acc = f(acc, x)] where the body can raise. *)
Fixpoint foldR {A S} (f : S -> A -> result S) (l : list A) (s : S) : result S :=
  match l with
  | [] => Ok s
  | x :: l' => (let! s' := f s x in foldR f l' s')%res
  end.

(** [enumerate(l)], counting from [n]. *)
Fixpoint enumerate_from {A} (n : nat) (l : list A) : list (nat * A) :=
  match l with
  | [] => []
  | x :: l' => (n, x) :: enumerate_from (S n) l'
  end.
Definition enumerate {A} (l : list A) : list (nat * A) := enumerate_from 0 l.

(** ** The [str] and [list] primitives the parser uses *)

Module PyStr.

(** [c.isspace()] on the Latin-1 block: TAB..CR, FS..US, SPACE, NEL, NBSP. *)
Definition isspace (c : ascii) : bool :=
  let n := nat_of_ascii c in
  ((9 <=? n) && (n <=? 13)) || ((28 <=? n) && (n <=? 32))
  || (n =? 133) || (n =? 160).

(** [c.isdigit()] on the Latin-1 block: 0..9 and the superscripts 1, 2, 3. *)
Definition isdigit_char (c : ascii) : bool :=
  let n := nat_of_ascii c in
  ((48 <=? n) && (n <=? 57)) || (n =? 178) || (n =? 179) || (n =? 185).

(** [s.isdigit()]: non-empty and every character a digit. *)
Fixpoint all_digits (s : string) : bool :=
  match s with
  | EmptyString => true
  | String c s' => isdigit_char c && all_digits s'
  end.
Definition isdigit (s : string) : bool :=
  match s with
  | EmptyString => false
  | _ => all_digits s
  end.

Definition lower_char (c : ascii) : ascii :=
  let n := nat_of_ascii c in
  if ((65 <=? n) && (n <=? 90))
     || ((192 <=? n) && (n <=? 214)) || ((216 <=? n) && (n <=? 222))
  then ascii_of_nat (n + 32) else c.

(** [s.lower()]. *)
Fixpoint lower (s : string) : string :=
  match s with
  | EmptyString => EmptyString
  | String c s' => String (lower_char c) (lower s')
  end.

(** [needle in hay]. *)
Fixpoint contains (needle hay : string) : bool :=
  String.prefix needle hay
  || match hay with
     | EmptyString => false
     | String _ hay' => contains needle hay'
     end.

(** [s[i]] for an index [i >= 0]: a one-character string. *)
Definition getitem (s : string) (i : nat) : result string :=
  match String.get i s with
  | Some c => Ok (String c EmptyString)
  | None => Raise IndexError
  end.

(** [s.split()]: the maximal runs of non-whitespace characters.  [cur] is
    the run being read. *)
Fixpoint split_go (s cur : string) : list string :=
  match s with
  | EmptyString => match cur with EmptyString => [] | _ => [cur] end
  | String c s' =>
      if isspace c
      then match cur with
           | EmptyString => split_go s' EmptyString
           | _ => cur :: split_go s' EmptyString
           end
      else split_go s' (String.append cur (String c EmptyString))
  end.
Definition split (s : string) : list string := split_go s EmptyString.

(** The head field of a non-empty list of fields gets one more character
    in front. *)
Definition cons_head (c : ascii) (fields : list string) : list string :=
  match fields with
  | f :: fs => String c f :: fs
  | [] => [String c EmptyString]
  end.

(** [s.split(sep)] for a one-character separator: never empty. *)
Fixpoint split_on (sep : ascii) (s : string) : list string :=
  match s with
  | EmptyString => [EmptyString]
  | String c s' =>
      if Ascii.eqb c sep then EmptyString :: split_on sep s'
      else cons_head c (split_on sep s')
  end.

(** [s.replace(c, '')] for a one-character [c]. *)
Fixpoint remove_char (c : ascii) (s : string) : string :=
  match s with
  | EmptyString => EmptyString
  | String d s' =>
      if Ascii.eqb d c then remove_char c s' else String d (remove_char c s')
  end.

Fixpoint lstrip (s : string) : string :=
  match s with
  | EmptyString => EmptyString
  | String c s' => if isspace c then lstrip s' else s
  end.
Fixpoint rstrip (s : string) : string :=
  match s with
  | EmptyString => EmptyString
  | String c s' =>
      match rstrip s' with
      | EmptyString => if isspace c then EmptyString else String c EmptyString
      | r => String c r
      end
  end.
(** [s.strip()]. *)
Definition strip (s : string) : string := rstrip (lstrip s).

End PyStr.

Definition newline : ascii := ascii_of_nat 10.
Definition nl : string := String newline EmptyString.

(** [l[i]] for an index [i >= 0]. *)
Definition list_getitem {A} (l : list A) (i : nat) : result A :=
  match l !! i with
  | Some x => Ok x
  | None => Raise IndexError
  end.

(** [l[a:b]] for [a, b >= 0]. *)
Definition slice {A} (l : list A) (a b : nat) : list A := drop a (take b l).

(** ** Dictionaries keep insertion order; assigning an existing key keeps
    its place and replaces its value. *)
Definition dict (V : Type) : Type := list (string * V).

Fixpoint dict_set {V} (d : dict V) (k : string) (v : V) : dict V :=
  match d with
  | [] => [(k, v)]
  | (k', v') :: d' =>
      if String.eqb k' k then (k', v) :: d' else (k', v') :: dict_set d' k v
  end.

(** [{k: v for (k, v) in kvs}]. *)
Definition dict_of_pairs {V} (kvs : list (string * V)) : dict V :=
  fold_left (fun d kv => dict_set d (fst kv) (snd kv)) kvs [].

(** ** [contains_element] *)

(** [any([element_to_search == element for element in list_to_search])]. *)
Definition contains_element (list_to_search : list string)
    (element_to_search : string) : bool :=
  existsb (fun element => String.eqb element_to_search element) list_to_search.

(** ** [get_file_section] *)

(** The test of the scanning loop:
    [(identifier in line.lower()) and (line.split()[0].lower() == identifier)]. *)
Definition is_marker (identifier line : string) : result bool :=
  if PyStr.contains identifier (PyStr.lower line)
  then (let! tok := list_getitem (PyStr.split line) 0 in
        Ok (String.eqb (PyStr.lower tok) identifier))%res
  else Ok false.

(** One turn of the scanning loop over [enumerate(lines)]. *)
Definition scan_step (identifier : string)
    (acc : list nat * list string) (il : nat * string)
  : result (list nat * list string) :=
  (let! m := is_marker identifier (snd il) in
   Ok (if m : bool
       then (fst acc ++ [fst il], snd acc ++ [PyStr.remove_char newline (snd il)])
       else acc))%res.

Definition scan_markers (identifier : string) (lines : list string)
  : result (list nat * list string) :=
  foldR (scan_step identifier) (enumerate lines) ([], []).

(** The element of the [sections] comprehension for [(i, index)]:
    [lines[index:] if len(indices) == 1 else lines[index:indices[i+1]]]. *)
Definition section_at (lines : list string) (indices : list nat)
    (i_index : nat * nat) : result (list string) :=
  let '(i, index) := i_index in
  if length indices =? 1 then Ok (drop index lines)
  else (let! next := list_getitem indices (i + 1) in
        Ok (slice lines index next))%res.

Definition get_file_section (lines : list string) (identifier : string)
  : result (dict (list string)) :=
  (let! found := scan_markers identifier lines in
   let '(indices, labels) :=
     match fst found with
     | [] => ([0], ["full_" +:+ identifier])
     | _ => found
     end in
   let! sections := mapR (section_at lines indices) (enumerate indices) in
   Ok (dict_of_pairs (zip labels sections)))%res.

(** ** [get_targets_calibrators_tags] *)

(** The parsed lists of one night. *)
Record NightEntry : Type := mkNightEntry {
  SCI : list string;
  CAL : list (list string);
  TAG : list (list string)
}.

(** The local variables the classification loop mutates. *)
Record pstate : Type := mkState {
  sci_lst : list string;
  cal_lst : list (list string);
  tag_lst : list (list string);
  double_sci : bool;
  counter : nat
}.

(** State and exceptions: the state reached when an exception is raised is
    the state the handler sees. *)
Definition M (A : Type) : Type := pstate -> result A * pstate.

Definition mret {A} (a : A) : M A := fun st => (Ok a, st).
Definition mbind {A B} (m : M A) (k : A -> M B) : M B :=
  fun st =>
    match m st with
    | (Ok a, st') => k a st'
    | (Raise e, st') => (Raise e, st')
    end.
Definition lift {A} (r : result A) : M A := fun st => (r, st).
Definition gets {A} (f : pstate -> A) : M A := fun st => (Ok (f st), st).
Definition modify (f : pstate -> pstate) : M unit := fun st => (Ok tt, f st).

(** [try: m  except: pass]. *)
Definition try_pass (m : M unit) : M unit := fun st => (Ok tt, snd (m st)).

Declare Scope M_scope.
Delimit Scope M_scope with M.
Notation "'let!' x ':=' m 'in' k" := (mbind m (fun x => k))
  (at level 10, x name, m at level 100, k at level 200) : M_scope.
Notation "m ';;' k" := (mbind m (fun _ => k))
  (at level 100, k at level 200, right associativity) : M_scope.

(** [for x in l: body(x)]: an exception leaving the body ends the loop. *)
Fixpoint for_each {A} (body : A -> M unit) (l : list A) : M unit :=
  match l with
  | [] => mret tt
  | x :: l' => (body x ;; for_each body l')%M
  end.

Definition set_sci (v : list string) (st : pstate) : pstate :=
  mkState v (cal_lst st) (tag_lst st) (double_sci st) (counter st).
Definition set_cal (v : list (list string)) (st : pstate) : pstate :=
  mkState (sci_lst st) v (tag_lst st) (double_sci st) (counter st).
Definition set_tag (v : list (list string)) (st : pstate) : pstate :=
  mkState (sci_lst st) (cal_lst st) v (double_sci st) (counter st).
Definition set_double_sci (v : bool) (st : pstate) : pstate :=
  mkState (sci_lst st) (cal_lst st) (tag_lst st) v (counter st).
Definition set_counter (v : nat) (st : pstate) : pstate :=
  mkState (sci_lst st) (cal_lst st) (tag_lst st) (double_sci st) v.

(** [groups[k].append(x)] once [groups[k]] and [x] have been evaluated. *)
Definition group_append (groups : list (list string)) (k : nat) (x : string)
  : list (list string) :=
  alter (fun g => g ++ [x]) k groups.

(** [cal_lst[k].append(arg)]: the group is looked up, then the argument is
    evaluated, then the group is extended. *)
Definition cal_append (k : nat) (arg : result string) : M unit :=
  (let! groups := gets cal_lst in
   let! _ := lift (list_getitem groups k) in
   let! x := lift arg in
   modify (set_cal (group_append groups k x)))%M.

(** [tag_lst[k].append(arg)]. *)
Definition tag_append (k : nat) (arg : result string) : M unit :=
  (let! groups := gets tag_lst in
   let! _ := lift (list_getitem groups k) in
   let! x := lift arg in
   modify (set_tag (group_append groups k x)))%M.

(** [line.split()[0][0].isdigit()]. *)
Definition first_token_is_digit (line : string) : result bool :=
  (let! tok := list_getitem (PyStr.split line) 0 in
   let! ch := PyStr.getitem tok 0 in
   Ok (PyStr.isdigit ch))%res.

(** [line[0][0].isdigit()] for a string [line]. *)
Definition first_char_is_digit (line : string) : result bool :=
  (let! c := PyStr.getitem line 0 in
   let! c' := PyStr.getitem c 0 in
   Ok (PyStr.isdigit c'))%res.

(** The test of the outer [if]:
    [((line == '') or (not line.split()[0][0].isdigit()))
      and (lines[index+1].split()[0][0].isdigit())]. *)
Definition is_group_boundary (lines : list string) (index : nat)
    (line : string) : result bool :=
  (let! left :=
     (if String.eqb line "" then Ok true
      else let! d := first_token_is_digit line in Ok (negb d)) in
   if left : bool
   then let! next := list_getitem lines (index + 1) in
        first_token_is_digit next
   else Ok false)%res.

(** The test of the look-ahead:
    [lines[index+1][0][0].isdigit()
      and not ("cal_" in lines[index+1].split(' ')[1])
      and lines[index+2][0][0].isdigit()]. *)
Definition look_ahead (lines : list string) (index : nat) : result bool :=
  (let! next := list_getitem lines (index + 1) in
   let! d := first_char_is_digit next in
   if d : bool
   then let! next' := list_getitem lines (index + 1) in
        let! field := list_getitem (PyStr.split_on " " next') 1 in
        if negb (PyStr.contains "cal_" field)
        then let! after := list_getitem lines (index + 2) in
             first_char_is_digit after
        else Ok false
   else Ok false)%res.

(** The calibrator branch (source lines 130-139). *)
Definition record_calibrator (field : string) : M unit :=
  (let temp_cal := PyStr.split_on "_" field in
   let! k := gets counter in
   cal_append k (list_getitem temp_cal 2) ;;
   tag_append k (list_getitem temp_cal 1) ;;
   let! pending := gets double_sci in
   if pending : bool
   then modify (fun st => set_cal (cal_lst st ++ [[]]) st) ;;
        modify (fun st => set_tag (tag_lst st ++ [[]]) st) ;;
        cal_append (k + 1) (list_getitem temp_cal 2) ;;
        tag_append (k + 1) (list_getitem temp_cal 1) ;;
        modify (set_double_sci false)
   else mret tt)%M.

(** The science-target branch (source lines 141-155); [fields] is
    [line.split(' ')]. *)
Definition record_target (lines : list string) (index : nat)
    (fields : list string) : M unit :=
  ((if negb (Z.of_nat index =? Z.of_nat (length lines) - 3)%Z
    then try_pass (let! two := lift (look_ahead lines index) in
                   if two : bool then modify (set_double_sci true)
                   else mret tt)
    else mret tt) ;;
   let! f3 := lift (list_getitem fields 3) in
   if negb (String.eqb f3 "")
   then let! a := lift (list_getitem fields 1) in
        let! b := lift (list_getitem fields 2) in
        let! c := lift (list_getitem fields 3) in
        modify (fun st =>
          set_sci (sci_lst st ++ [PyStr.strip (a +:+ " " +:+ b +:+ " " +:+ c)]) st)
   else let! a := lift (list_getitem fields 1) in
        let! b := lift (list_getitem fields 2) in
        modify (fun st =>
          set_sci (sci_lst st ++ [PyStr.strip (a +:+ " " +:+ b)]) st))%M.

(** The body of the [try] of the classification loop (source lines
    118-155). *)
Definition classify_line (lines : list string) (index : nat) (line : string)
  : M unit :=
  (let! boundary := lift (is_group_boundary lines index line) in
   if boundary : bool
   then modify (fun st => set_counter (counter st + 1) st) ;;
        modify (fun st => set_cal (cal_lst st ++ [[]]) st) ;;
        modify (fun st => set_tag (tag_lst st ++ [[]]) st)
   else
     let fields := PyStr.split_on " " line in
     let! f0 := lift (list_getitem fields 0) in
     let! ch := lift (PyStr.getitem f0 0) in
     if PyStr.isdigit ch && (2 <? length fields)
        && (length (PyStr.split_on ":" f0) =? 2)
     then let! f1 := lift (list_getitem fields 1) in
          if PyStr.contains "cal_" f1 then record_calibrator f1
          else record_target lines index fields
     else mret tt)%M.

(** One turn of the loop: the body under [try ... except: pass]. *)
Definition loop_turn (lines : list string) (il : nat * string) : M unit :=
  try_pass (classify_line lines (fst il) (snd il)).

Definition initial_state : pstate := mkState [] [[]] [[]] false 0.

(** The classification loop over the bounded lines. *)
Definition classify (lines : list string) : M unit :=
  for_each (loop_turn lines) (enumerate lines).

(** [[index for index, line in enumerate(lines) if test(line)]] where the
    test can raise. *)
Fixpoint indices_where (test : string -> result bool)
    (l : list (nat * string)) : result (list nat) :=
  match l with
  | [] => Ok []
  | (index, line) :: l' =>
      (let! keep := test line in
       let! rest := indices_where test l' in
       Ok (if keep : bool then index :: rest else rest))%res
  end.

(** [line[0].isdigit()]. *)
Definition starts_with_digit (line : string) : result bool :=
  (let! c := PyStr.getitem line 0 in Ok (PyStr.isdigit c))%res.

(** The bounded and normalised lines (source lines 109-111). *)
Definition bounded_lines (lines : list string) : result (list string) :=
  (let! starts := indices_where starts_with_digit (enumerate lines) in
   let! line_start := list_getitem starts 0 in
   let! ends := indices_where
                  (fun line => Ok (PyStr.contains "calibrator_find" line))
                  (enumerate lines) in
   let! line_end := list_getitem ends 0 in
   Ok (map (fun line => if String.eqb line nl then "" else line)
         (slice lines line_start line_end)))%res.

Definition get_targets_calibrators_tags (lines : list string)
  : result NightEntry :=
  (let! lines := bounded_lines lines in
   match classify lines initial_state with
   | (Ok _, st) => Ok (mkNightEntry (sci_lst st) (cal_lst st) (tag_lst st))
   | (Raise e, _) => Raise e
   end)%res.

(** ** [parse_night_plan] *)

(** The names bound at module level when [parse_night_plan] runs: the
    imports and the four functions. *)
Definition module_globals : list string :=
  ["os"; "yaml"; "warnings"; "Path"; "Dict"; "List"; "Optional";
   "contains_element"; "get_file_section"; "get_targets_calibrators_tags";
   "parse_night_plan"].

(** Evaluating a global name that is not a builtin. *)
Definition global_name (name : string) : result unit :=
  if existsb (String.eqb name) module_globals then Ok tt else Raise NameError.

(** [f.readlines()] on the text of a file as text mode hands it over
    (decoded, line ends translated to the newline character): every line
    keeps its newline; the last line has none when the text does not end
    with one. *)
Fixpoint readlines_go (text cur : string) : list string :=
  match text with
  | EmptyString => match cur with EmptyString => [] | _ => [cur] end
  | String c text' =>
      if Ascii.eqb c newline
      then (cur +:+ nl) :: readlines_go text' EmptyString
      else readlines_go text' (cur +:+ String c EmptyString)
  end.
Definition readlines (text : string) : list string :=
  readlines_go text EmptyString.

(** What is at a path: a file that is opened and read as text, or
    something on which [open(path, "r+")] or [readlines()] fails (a
    directory, a file without the rights, bytes that do not decode, a path
    that is not valid), with the exception raised. *)
Inductive file : Type :=
| Readable (text : string)
| Unreadable (e : exn).

(** What is at each path; [None] where nothing is. *)
Definition file_system : Type := string -> option file.

(** [open(path, "r+")] followed by [readlines()]. *)
Definition open_readlines (fs : file_system) (path : string)
  : result (list string) :=
  match fs path with
  | Some (Readable text) => Ok (readlines text)
  | Some (Unreadable e) => Raise e
  | None => Raise FileNotFoundError
  end.

Definition RunPlan : Type := dict NightEntry.
Definition PlanDictionary : Type := dict RunPlan.

(** The inner loop (source lines 204-207). *)
Definition parse_nights (sub_sections : dict (list string)) : result RunPlan :=
  foldR (fun (nights : RunPlan) (item : string * list string) =>
           if contains_element (snd item) "cal_"
           then (let! entry := get_targets_calibrators_tags (snd item) in
                 Ok (dict_set nights (fst item) entry))%res
           else Ok nights)
        sub_sections [].

(** The outer loop (source lines 201-209). *)
Definition parse_runs (sub_identifier : string) (runs : dict (list string))
  : result PlanDictionary :=
  foldR (fun (night_plan_dict : PlanDictionary) (item : string * list string) =>
           (let! temp_subsection_dict :=
              get_file_section (snd item) sub_identifier in
            let! nights := parse_nights temp_subsection_dict in
            Ok (dict_set night_plan_dict (fst item) nights))%res)
        runs [].

(** [parse_night_plan]: the value returned or the exception raised, and the
    warnings emitted on the way. *)
Definition parse_night_plan (fs : file_system) (night_plan_path : string)
    (run_identifier sub_identifier : string) (save_to_file : bool)
  : result PlanDictionary * list string :=
  match open_readlines fs night_plan_path with
  | Raise FileNotFoundError =>
      (* the handler: [warning.warn(...)], then [return night_plan_dict] *)
      match global_name "warning" with
      | Ok _ =>
          (Ok [], ["File " +:+ night_plan_path
                   +:+ " was not found/does not exist!"])
      | Raise e => (Raise e, [])
      end
  | Raise e => (Raise e, [])
  | Ok lines =>
      ((let! runs := get_file_section lines run_identifier in
        let! night_plan_dict := parse_runs sub_identifier runs in
        if save_to_file : bool
        then (* [open(output_path, "w+")] evaluates [output_path] first *)
             let! _ := global_name "output_path" in Ok night_plan_dict
        else Ok night_plan_dict)%res, [])
  end.

(** A line as [readlines] yields it: the text and its newline. *)
Definition ln (text : string) : string := text +:+ nl.

(** The lines of all the sections of a dictionary, in the order of its
    keys. *)
Definition all_lines (sections : dict (list string)) : list string :=
  concat (map snd sections).

(** [s] has a character that is not whitespace. *)
Fixpoint nonblank (s : string) : bool :=
  match s with
  | EmptyString => false
  | String c s' => negb (PyStr.isspace c) || nonblank s'
  end.

(** A plan with one run and two nights; the second night ends with the
    line ["cal_"], the first has no such line. *)
Definition two_night_plan : string :=
  ln "run 1" +:+ ln "night 1" +:+ ln "1: HD 1 x" +:+ ln "calibrator_find"
  +:+ ln "night 2" +:+ ln "1: MY Lup " +:+ ln "2: cal_LN_HD12345 extra"
  +:+ ln "calibrator_find" +:+ "cal_".

(** The file system that holds [text] at [path] and nothing else. *)
Definition single_file (path text : string) : file_system :=
  fun p => if String.eqb p path then Some (Readable text) else None.

(** The state of the classification loop over [lines] when its first [k]
    turns are done. *)
Definition state_after (lines : list string) (k : nat) : pstate :=
  snd (for_each (loop_turn lines) (take k (enumerate lines)) initial_state).

(** What the loop keeps true of its lists: the groups of [cal_lst] and of
    [tag_lst] have the same lengths, position by position, and [counter]
    is the position of a group. *)
Definition well_formed (st : pstate) : Prop :=
  map length (cal_lst st) = map length (tag_lst st)
  /\ counter st < length (cal_lst st).

(** The flag [double_sci] when the look-ahead of a target line at [index]
    is done. *)
Definition pending_after (lines : list string) (index : nat) (st : pstate)
  : bool :=
  if negb (Z.of_nat index =? Z.of_nat (length lines) - 3)%Z
  then match look_ahead lines index with
       | Ok true => true
       | _ => double_sci st
       end
  else double_sci st.

(** The name a target line with the fields [a], [b], [c] after its prefix
    is recorded under. *)
Definition target_name (a b c : string) : string :=
  if negb (String.eqb c "") then PyStr.strip (a +:+ " " +:+ b +:+ " " +:+ c)
  else PyStr.strip (a +:+ " " +:+ b).

(** The kinds of record lines, as the tests of the loop body tell them
    apart (source lines 125-129).  A record line passes the test on its
    prefix and its number of fields. *)
Definition record_line (line : string) : bool :=
  let fields := PyStr.split_on " " line in
  match list_getitem fields 0 with
  | Ok f0 =>
      match PyStr.getitem f0 0 with
      | Ok ch => PyStr.isdigit ch && (2 <? length fields)
                 && (length (PyStr.split_on ":" f0) =? 2)
      | Raise _ => false
      end
  | Raise _ => false
  end.

(** [line.split(' ')[1]] of a record line. *)
Definition second_field (line : string) : string :=
  match list_getitem (PyStr.split_on " " line) 1 with
  | Ok f => f
  | Raise _ => EmptyString
  end.

Definition is_target_record (line : string) : bool :=
  record_line line && negb (PyStr.contains "cal_" (second_field line)).

Definition is_calibrator_record (line : string) : bool :=
  record_line line && PyStr.contains "cal_" (second_field line).

(** The tag and the identifier of a calibrator record whose second field
    has them. *)
Definition calibrator_of (line : string) : option (string * string) :=
  if is_calibrator_record line
  then match PyStr.split_on "_" (second_field line) with
       | _ :: tg :: id :: _ => Some (tg, id)
       | _ => None
       end
  else None.

(** A line on which the marker test of [get_file_section] is true. *)
Definition marker_line (identifier line : string) : bool :=
  match is_marker identifier line with
  | Ok true => true
  | _ => false
  end.

(** The number of marker lines of an input. *)
Definition count_markers (identifier : string) (lines : list string) : nat :=
  length (List.filter (marker_line identifier) lines).

(** The positions of the marker lines, counting from [n]. *)
Fixpoint marker_indices (identifier : string) (n : nat) (lines : list string)
  : list nat :=
  match lines with
  | [] => []
  | line :: lines' =>
      if marker_line identifier line
      then n :: marker_indices identifier (S n) lines'
      else marker_indices identifier (S n) lines'
  end.

(** ** The script ([if __name__ == "__main__"]) *)

(** [s.endswith("/")]. *)
Fixpoint ends_with_slash (s : string) : bool :=
  match s with
  | EmptyString => false
  | String c EmptyString => Ascii.eqb c "/"
  | String _ s' => ends_with_slash s'
  end.

(** [os.path.join(a, b)] on POSIX. *)
Definition os_path_join (a b : string) : string :=
  if String.prefix "/" b then b
  else match a with
       | EmptyString => b
       | _ => if ends_with_slash a then a +:+ b else a +:+ "/" +:+ b
       end.

(** The script: the plan of a fixed path is parsed with [save_to_file=True]
    and the runs whose label contains ["run 6"] are printed.  The value is
    the list of the items printed. *)
Definition main (fs : file_system)
  : result (list (string * RunPlan)) * list string :=
  let data_path := "/Users/scheuck/Data/observations/P109/" in
  let specific_path := "september2022/p109_observing_plan_v0.1.txt" in
  let path := os_path_join data_path specific_path in
  match parse_night_plan fs path "run" "night" true with
  | (Ok run_dict, warned) =>
      (Ok (List.filter (fun item => PyStr.contains "run 6" (fst item)) run_dict),
       warned)
  | (Raise e, warned) => (Raise e, warned)
  end.

(** ** The states one turn of the classification loop can lead to *)

(** The state after a group boundary (source lines 120-122). *)
Definition after_boundary (st : pstate) : pstate :=
  mkState (sci_lst st) (cal_lst st ++ [[]]) (tag_lst st ++ [[]])
    (double_sci st) (counter st + 1).

(** The state after a calibrator record with tag [tg] and identifier [id]
    (source lines 131-139). *)
Definition after_calibrator (tg id : string) (st : pstate) : pstate :=
  let k := counter st in
  if double_sci st
  then mkState (sci_lst st)
         (group_append (group_append (cal_lst st) k id ++ [[]]) (k + 1) id)
         (group_append (group_append (tag_lst st) k tg ++ [[]]) (k + 1) tg)
         false k
  else mkState (sci_lst st)
         (group_append (cal_lst st) k id) (group_append (tag_lst st) k tg)
         false k.

(** Nothing recorded in [st] is lost or changed in [st']: the names, the
    counter and every group can only have grown. *)
Definition grows (st st' : pstate) : Prop :=
  (exists more, sci_lst st' = sci_lst st ++ more)
  /\ counter st <= counter st'
  /\ (forall i g, cal_lst st !! i = Some g ->
        exists more, cal_lst st' !! i = Some (g ++ more))
  /\ (forall i g, tag_lst st !! i = Some g ->
        exists more, tag_lst st' !! i = Some (g ++ more)).

(** The first character of a line is a digit. *)
Definition begins_with_digit (line : string) : bool :=
  match line with
  | String c _ => PyStr.isdigit_char c
  | EmptyString => false
  end.

(** The position of the first line that passes a test, counting from [n]. *)
Fixpoint first_index_from (test : string -> bool) (n : nat)
    (lines : list string) : option nat :=
  match lines with
  | [] => None
  | line :: lines' =>
      if test line then Some n else first_index_from test (S n) lines'
  end.
Definition first_index (test : string -> bool) (lines : list string)
  : option nat :=
  first_index_from test 0 lines.

(** The entry returned from the last state of the loop (source line 159). *)
Definition entry_of (st : pstate) : NightEntry :=
  mkNightEntry (sci_lst st) (cal_lst st) (tag_lst st).

(** The state the classification loop over [lines] ends in when it makes
    its turns from the turn [k] on, from the state [st]. *)
Definition rest_of_pass (lines : list string) (k : nat) (st : pstate) : pstate :=
  snd (for_each (loop_turn lines) (drop k (enumerate lines)) st).

(** * Properties *)

(** ** The sectioner *)

Section Sectioner.

Variable identifier : string.

Lemma enumerate_from_app {A} (l1 l2 : list A) (n : nat) :
  enumerate_from n (l1 ++ l2)
  = enumerate_from n l1 ++ enumerate_from (n + length l1) l2.
Proof.
  revert n; induction l1 as [|x l1 IH]; intros n; simpl.
  - now rewrite Nat.add_0_r.
  - rewrite IH. do 3 f_equal. lia.
Qed.

Lemma foldR_app {A S} (f : S -> A -> result S) (l1 l2 : list A) (s : S) :
  foldR f (l1 ++ l2) s = rbind (foldR f l1 s) (foldR f l2).
Proof.
  revert s; induction l1 as [|x l1 IH]; intros s; simpl; [reflexivity|].
  destruct (f s x); simpl; [apply IH | reflexivity].
Qed.

(** Lines that are not markers leave the scan's accumulators alone. *)
Lemma scan_no_marker (lines : list string) (n : nat) acc :
  Forall (fun line => is_marker identifier line = Ok false) lines ->
  foldR (scan_step identifier) (enumerate_from n lines) acc = Ok acc.
Proof.
  intros H; revert n; induction H as [|line lines Hl _ IH]; intros n; simpl.
  - reflexivity.
  - unfold scan_step at 1; simpl. rewrite Hl; simpl. apply IH.
Qed.

(** The scan of an input with exactly one marker line. *)
Lemma scan_one_marker (pre post : list string) (m : string) :
  Forall (fun line => is_marker identifier line = Ok false) pre ->
  is_marker identifier m = Ok true ->
  Forall (fun line => is_marker identifier line = Ok false) post ->
  scan_markers identifier (pre ++ m :: post)
  = Ok ([length pre], [PyStr.remove_char newline m]).
Proof.
  intros Hpre Hm Hpost. unfold scan_markers, enumerate.
  rewrite enumerate_from_app, foldR_app, (scan_no_marker pre 0 _ Hpre).
  simpl. unfold scan_step at 1; simpl. rewrite Hm; simpl.
  apply scan_no_marker, Hpost.
Qed.

(** With two markers or more, the comprehension that cuts the sections
    asks for the marker after the last one. *)
Lemma sections_raise (lines : list string) (indices : list nat) :
  2 <= length indices ->
  mapR (section_at lines indices) (enumerate indices) = Raise IndexError.
Proof.
  intros Hlen. unfold enumerate.
  assert (Hgen : forall (l : list nat) (n : nat),
             l <> [] -> n + length l = length indices ->
             mapR (section_at lines indices) (enumerate_from n l)
             = Raise IndexError).
  { induction l as [|x l IH]; intros n Hne Hn; [congruence|].
    simpl. destruct (length indices =? 1) eqn:E1;
      [apply Nat.eqb_eq in E1; lia|].
    unfold list_getitem.
    destruct (indices !! (n + 1)) as [next|] eqn:Hnext; simpl.
    - destruct l as [|y l].
      + apply lookup_lt_Some in Hnext. simpl in Hn. lia.
      + rewrite IH; [reflexivity | congruence | simpl in *; lia].
    - reflexivity. }
  apply Hgen; [destruct indices; simpl in *; [lia | congruence] | reflexivity].
Qed.

End Sectioner.

Lemma get_file_section_many_markers (lines : list string) (identifier : string)
    (indices : list nat) (labels : list string) :
  scan_markers identifier lines = Ok (indices, labels) ->
  2 <= length indices ->
  get_file_section lines identifier = Raise IndexError.
Proof.
  intros Hscan Hlen. unfold get_file_section. rewrite Hscan; simpl.
  destruct indices as [|i0 indices]; [simpl in Hlen; lia|].
  now rewrite sections_raise.
Qed.

(** An identifier with a visible character is tested on every line without
    an exception: a line that contains it has a first token. *)
Section MarkerTotal.

Lemma isspace_lower_char (c : ascii) :
  PyStr.isspace (PyStr.lower_char c) = PyStr.isspace c.
Proof. destruct c as [[] [] [] [] [] [] [] []]; reflexivity. Qed.

Lemma nonblank_lower (s : string) : nonblank (PyStr.lower s) = nonblank s.
Proof.
  induction s as [|c s IH]; simpl; [reflexivity|].
  now rewrite isspace_lower_char, IH.
Qed.

Lemma nonblank_prefix (needle hay : string) :
  String.prefix needle hay = true -> nonblank needle = true ->
  nonblank hay = true.
Proof.
  revert hay; induction needle as [|a needle IH]; intros hay; simpl.
  - intros _ [=].
  - destruct hay as [|b hay]; simpl; [intros [=]|].
    destruct (ascii_dec a b) as [->|]; [|intros [=]].
    intros Hp Hn; simpl. apply orb_true_iff in Hn as [Hn|Hn].
    + now rewrite Hn.
    + rewrite (IH hay Hp Hn). apply orb_true_r.
Qed.

Lemma nonblank_contains (needle hay : string) :
  PyStr.contains needle hay = true -> nonblank needle = true ->
  nonblank hay = true.
Proof.
  induction hay as [|b hay IH]; simpl; intros Hc Hn.
  - destruct needle; simpl in *; congruence.
  - apply orb_true_iff in Hc as [Hc|Hc].
    + apply (nonblank_prefix needle (String b hay) Hc Hn).
    + rewrite (IH Hc Hn). apply orb_true_r.
Qed.

Lemma split_go_run (s cur : string) :
  cur <> EmptyString -> PyStr.split_go s cur <> [].
Proof.
  revert cur; induction s as [|c s IH]; intros cur Hcur; simpl.
  - destruct cur; congruence.
  - destruct (PyStr.isspace c).
    + destruct cur; congruence.
    + apply IH. destruct cur; discriminate.
Qed.

Lemma split_nonblank (s : string) :
  nonblank s = true -> PyStr.split s <> [].
Proof.
  unfold PyStr.split. induction s as [|c s IH]; simpl; [discriminate|].
  destruct (PyStr.isspace c); simpl.
  - exact IH.
  - intros _. apply split_go_run. discriminate.
Qed.

Lemma is_marker_total (identifier line : string) :
  nonblank identifier = true ->
  exists b, is_marker identifier line = Ok b.
Proof.
  intros Hid. unfold is_marker.
  destruct (PyStr.contains identifier (PyStr.lower line)) eqn:Hc;
    [|now exists false].
  apply nonblank_contains in Hc; [|exact Hid].
  rewrite nonblank_lower in Hc. apply split_nonblank in Hc.
  destruct (PyStr.split line) as [|tok toks]; [congruence|].
  simpl. eauto.
Qed.

End MarkerTotal.

(** When the marker test is false on every line of the input,
    [get_file_section] returns exactly one entry, labelled
    ["full_" + identifier], whose section is the whole input. *)
Lemma get_file_section_no_marker (lines : list string) (identifier : string) :
  Forall (fun line => is_marker identifier line = Ok false) lines ->
  get_file_section lines identifier = Ok [("full_" +:+ identifier, lines)].
Proof.
  intros H. unfold get_file_section, scan_markers, enumerate.
  rewrite (scan_no_marker identifier lines 0 _ H). reflexivity.
Qed.

(** C1, as stated, fails: with one marker line that is not the first line
    of the input, the one section returned starts at the marker, and the
    lines before it are in no section. *)
Lemma get_file_section_drops_preamble :
  let lines := [ln "header"; ln "run 1"; ln "a"] in
  scan_markers "run" lines = Ok ([1], ["run 1"])
  /\ exists sections,
       get_file_section lines "run" = Ok sections
       /\ sections = [("run 1", [ln "run 1"; ln "a"])]
       /\ all_lines sections <> lines.
Proof.
  split; [reflexivity|].
  eexists; split; [reflexivity|]. split; [reflexivity|]. discriminate.
Qed.

(** C1, amended.  For an input with exactly one marker line [m], after the
    lines [pre] and before the lines [post], [get_file_section] returns
    exactly one entry, labelled with [m] without its newlines, whose
    section runs from the marker line to the end of the input.  The lines
    before the marker are in no section: the section rebuilds the input
    from the marker on, and the whole input exactly when the marker is the
    first line. *)
Theorem get_file_section_single_marker
    (identifier m : string) (pre post : list string) :
  Forall (fun line => is_marker identifier line = Ok false) pre ->
  is_marker identifier m = Ok true ->
  Forall (fun line => is_marker identifier line = Ok false) post ->
  exists sections,
    get_file_section (pre ++ m :: post) identifier = Ok sections
    /\ sections = [(PyStr.remove_char newline m, m :: post)]
    /\ pre ++ all_lines sections = pre ++ m :: post
    /\ (all_lines sections = pre ++ m :: post <-> pre = []).
Proof.
  intros Hpre Hm Hpost. eexists. split; [|split; [reflexivity|]].
  - unfold get_file_section.
    rewrite (scan_one_marker identifier pre post m Hpre Hm Hpost). simpl.
    rewrite drop_app_length. reflexivity.
  - unfold all_lines; simpl. rewrite app_nil_r. split; [reflexivity|].
    split.
    + intros H. apply (f_equal length) in H.
      rewrite length_app in H. destruct pre; [reflexivity | simpl in H; lia].
    + now intros ->.
Qed.

Lemma get_file_section_single_marker_witness :
  exists sections,
    get_file_section ([ln "header"] ++ ln "Run 1" :: [ln "a"]) "run"
    = Ok sections
    /\ sections = [(PyStr.remove_char newline (ln "Run 1"), ln "Run 1" :: [ln "a"])]
    /\ [ln "header"] ++ all_lines sections
       = [ln "header"] ++ ln "Run 1" :: [ln "a"]
    /\ (all_lines sections = [ln "header"] ++ ln "Run 1" :: [ln "a"]
        <-> [ln "header"] = []).
Proof.
  apply (get_file_section_single_marker "run" (ln "Run 1") [ln "header"] [ln "a"]).
  - repeat constructor.
  - reflexivity.
  - repeat constructor.
Defined.

(** ** The bounds of the classifier *)

Section Bounds.

Lemma indices_where_digit_raise (l : list (nat * string)) (e : exn) :
  indices_where starts_with_digit l = Raise e -> e = IndexError.
Proof.
  induction l as [|[index line] l IH]; simpl; [discriminate|].
  unfold starts_with_digit at 1, PyStr.getitem.
  destruct (String.get 0 line); simpl.
  - destruct (indices_where starts_with_digit l); simpl;
      [discriminate | intros [= <-]; now apply IH].
  - now intros [= <-].
Qed.

Lemma indices_where_none (test : string -> result bool)
    (lines : list string) (n : nat) (found : list nat) :
  Forall (fun line => test line <> Ok true) lines ->
  indices_where test (enumerate_from n lines) = Ok found -> found = [].
Proof.
  intros H; revert n found.
  induction H as [|line lines Hl _ IH]; intros n found; simpl.
  - now intros [= <-].
  - destruct (test line) as [[]|]; simpl; [congruence| |discriminate].
    destruct (indices_where test (enumerate_from (S n) lines)) eqn:E;
      simpl; [|discriminate].
    intros [= <-]. now apply (IH (S n)).
Qed.

Lemma indices_where_total (f : string -> bool) (l : list (nat * string)) :
  exists found, indices_where (fun line => Ok (f line)) l = Ok found.
Proof.
  induction l as [|[index line] l [found IH]]; simpl; [now eexists|].
  rewrite IH; simpl. eauto.
Qed.

End Bounds.

(** C10.  On an input with no line whose first character is a digit, or
    with no line that contains ["calibrator_find"],
    [get_targets_calibrators_tags] raises [IndexError] from the computation
    of the bounds: no entry is returned. *)
Theorem bounds_raise_IndexError (lines : list string) :
  Forall (fun line => starts_with_digit line <> Ok true) lines
  \/ Forall (fun line => PyStr.contains "calibrator_find" line = false) lines ->
  get_targets_calibrators_tags lines = Raise IndexError.
Proof.
  intros H. unfold get_targets_calibrators_tags, bounded_lines, enumerate.
  destruct (indices_where starts_with_digit (enumerate_from 0 lines))
    as [starts|e] eqn:Estarts; simpl.
  2: { now rewrite (indices_where_digit_raise _ _ Estarts). }
  destruct starts as [|line_start starts]; [reflexivity|]. simpl.
  destruct H as [H|H].
  - apply indices_where_none in Estarts; [discriminate | exact H].
  - destruct (indices_where
                (fun line => Ok (PyStr.contains "calibrator_find" line))
                (enumerate_from 0 lines)) as [ends|e] eqn:Eends; simpl.
    + apply indices_where_none in Eends; [now subst|].
      eapply Forall_impl; [exact H|]. simpl. intros line ->. discriminate.
    + destruct (indices_where_total (PyStr.contains "calibrator_find")
                  (enumerate_from 0 lines)) as [found Hf]. congruence.
Qed.

Lemma bounds_raise_IndexError_witness :
  get_targets_calibrators_tags [ln "night 1"; ln "1: HD 1 x"; ln "2: cal_LN_HD2 y"]
  = Raise IndexError.
Proof.
  apply bounds_raise_IndexError. right. repeat constructor.
Defined.

(** ** The assembler *)

(** C4: the claim does not hold of the code.  For a path with no file,
    the handler of [FileNotFoundError] evaluates the name [warning], which
    the module never binds (it imports [warnings]): [parse_night_plan]
    raises [NameError], emits no warning and returns nothing. *)
Theorem parse_night_plan_missing_file
    (fs : file_system) (path run_identifier sub_identifier : string)
    (save_to_file : bool) :
  fs path = None ->
  parse_night_plan fs path run_identifier sub_identifier save_to_file
  = (Raise NameError, []).
Proof.
  intros H. unfold parse_night_plan, open_readlines. now rewrite H.
Qed.

Lemma parse_night_plan_missing_file_witness :
  parse_night_plan (single_file "plan.txt" two_night_plan) "other.txt"
    "run" "night" false
  = (Raise NameError, []).
Proof.
  apply parse_night_plan_missing_file. reflexivity.
Defined.

(** C2: the claim does not hold of the code.  On the plan with one run
    and two nights the run's section has two ["night"] markers, and
    [get_file_section] raises [IndexError] when it cuts the section of the
    last one; [parse_night_plan] returns no mapping. *)
Theorem parse_night_plan_two_nights :
  exists run_section,
    get_file_section (readlines two_night_plan) "run"
    = Ok [("run 1", run_section)]
    /\ scan_markers "night" run_section
       = Ok ([1; 4], ["night 1"; "night 2"])
    /\ parse_night_plan (single_file "plan.txt" two_night_plan) "plan.txt"
         "run" "night" false
       = (Raise IndexError, []).
Proof.
  eexists. split; [vm_compute; reflexivity|]. split; vm_compute; reflexivity.
Qed.

(** ** The classifier *)

Section Groups.

Lemma group_append_lengths (c t : list (list string)) (k : nat) (x y : string) :
  map length c = map length t ->
  map length (group_append c k x) = map length (group_append t k y).
Proof.
  unfold group_append.
  revert t k; induction c as [|g c IH]; intros [|h t] k; simpl;
    try discriminate; [reflexivity|].
  intros [= Hg Hct]. destruct k as [|k]; simpl; f_equal.
  - rewrite !length_app, Hg. reflexivity.
  - exact Hct.
  - exact Hg.
  - apply IH, Hct.
Qed.

Lemma group_append_length (c : list (list string)) (k : nat) (x : string) :
  length (group_append c k x) = length c.
Proof. apply length_alter. Qed.

Lemma new_group_lengths (c t : list (list string)) :
  map length c = map length t ->
  map length (c ++ [[]]) = map length (t ++ [[]]).
Proof. intros H. now rewrite !map_app, H. Qed.

Lemma same_length (c t : list (list string)) :
  map length c = map length t -> length c = length t.
Proof. intros H. apply (f_equal length) in H. now rewrite !length_map in H. Qed.

Lemma list_getitem_lt {A} (l : list A) (k : nat) :
  k < length l -> exists x, list_getitem l k = Ok x.
Proof.
  intros H. unfold list_getitem.
  destruct (lookup_lt_is_Some_2 l k H) as [x ->]. eauto.
Qed.

Lemma list_getitem_ge {A} (l : list A) (k : nat) :
  length l <= k -> list_getitem l k = Raise IndexError.
Proof.
  intros H. unfold list_getitem. now rewrite (lookup_ge_None_2 l k H).
Qed.

End Groups.

(** The calibrator branch on a field with a tag and an identifier. *)
Lemma record_calibrator_run (field c0 tg id : string) (rest : list string)
    (st : pstate) :
  PyStr.split_on "_" field = c0 :: tg :: id :: rest ->
  counter st < length (cal_lst st) ->
  length (tag_lst st) = length (cal_lst st) ->
  record_calibrator field st
  = (Ok tt,
     let k := counter st in
     if double_sci st
     then mkState (sci_lst st)
            (group_append (group_append (cal_lst st) k id ++ [[]]) (k + 1) id)
            (group_append (group_append (tag_lst st) k tg ++ [[]]) (k + 1) tg)
            false k
     else mkState (sci_lst st)
            (group_append (cal_lst st) k id) (group_append (tag_lst st) k tg)
            false k).
Proof.
  intros Hsplit Hk Hlen.
  destruct st as [sci cal tag pending k]; simpl in *.
  destruct (list_getitem_lt cal k Hk) as [g Hg].
  destruct (list_getitem_lt tag k ltac:(lia)) as [h Hh].
  destruct (list_getitem_lt (group_append cal k id ++ [[]]) (k + 1)) as [g' Hg'].
  { rewrite length_app, group_append_length; simpl; lia. }
  destruct (list_getitem_lt (group_append tag k tg ++ [[]]) (k + 1)) as [h' Hh'].
  { rewrite length_app, group_append_length; simpl; lia. }
  unfold record_calibrator, cal_append, tag_append, mbind, gets, lift, modify,
    mret, set_cal, set_tag, set_double_sci; simpl.
  rewrite Hsplit, Hg; simpl. rewrite Hh; simpl.
  destruct pending; simpl; [|reflexivity].
  rewrite Hg'; simpl. rewrite Hh'; simpl. reflexivity.
Qed.

(** The calibrator branch on a field without an identifier, or in a state
    whose counter is not a group: nothing is appended. *)
Lemma record_calibrator_raise (field : string) (st : pstate) :
  length (PyStr.split_on "_" field) < 3 \/ length (cal_lst st) <= counter st ->
  record_calibrator field st = (Raise IndexError, st).
Proof.
  intros H.
  unfold record_calibrator, cal_append, tag_append, mbind, gets, lift; simpl.
  destruct (length (cal_lst st) <=? counter st) eqn:E.
  - apply Nat.leb_le in E. now rewrite (list_getitem_ge _ _ E).
  - apply Nat.leb_gt in E. destruct H as [H|H]; [|lia].
    destruct (list_getitem_lt _ _ E) as [g ->]; simpl.
    now rewrite (list_getitem_ge _ 2) by lia.
Qed.

Lemma set_double_sci_same (st : pstate) : set_double_sci (double_sci st) st = st.
Proof. now destruct st. Qed.

(** The look-ahead of a target line only touches the flag. *)
Lemma look_ahead_run (lines : list string) (index : nat) (st : pstate) :
  (if negb (Z.of_nat index =? Z.of_nat (length lines) - 3)%Z
   then try_pass (let! two := lift (look_ahead lines index) in
                  if two : bool then modify (set_double_sci true)
                  else mret tt)%M
   else mret tt) st
  = (Ok tt, set_double_sci (pending_after lines index st) st).
Proof.
  unfold pending_after, try_pass, mbind, lift, modify, mret.
  destruct (negb (Z.of_nat index =? Z.of_nat (length lines) - 3)%Z);
    [|now rewrite set_double_sci_same].
  destruct (look_ahead lines index) as [[]|e]; simpl;
    now rewrite ?set_double_sci_same.
Qed.

(** The target branch on a line with three fields or more after its
    prefix. *)
Lemma record_target_run (lines : list string) (index : nat)
    (f0 a b c : string) (rest : list string) (st : pstate) :
  record_target lines index (f0 :: a :: b :: c :: rest) st
  = (Ok tt,
     set_sci (sci_lst st ++ [target_name a b c])
       (set_double_sci (pending_after lines index st) st)).
Proof.
  unfold record_target, mbind at 1. rewrite look_ahead_run.
  unfold target_name, mbind, lift, modify; simpl.
  destruct (negb (String.eqb c "")); reflexivity.
Qed.

(** The target branch on a line with fewer fields: no name is recorded. *)
Lemma record_target_short (lines : list string) (index : nat)
    (fields : list string) (st : pstate) :
  length fields <= 3 ->
  record_target lines index fields st
  = (Raise IndexError, set_double_sci (pending_after lines index st) st).
Proof.
  intros H. unfold record_target, mbind at 1. rewrite look_ahead_run.
  unfold mbind, lift. now rewrite (list_getitem_ge _ 3 H).
Qed.

(** One line of the loop keeps the lists well formed, and a line that
    raises leaves the three lists and the counter as they were. *)
Lemma classify_line_inv (lines : list string) (index : nat) (line : string)
    (st st' : pstate) (r : result unit) :
  well_formed st ->
  classify_line lines index line st = (r, st') ->
  well_formed st'
  /\ (forall e, r = Raise e ->
        sci_lst st' = sci_lst st /\ cal_lst st' = cal_lst st
        /\ tag_lst st' = tag_lst st /\ counter st' = counter st).
Proof.
  intros [Hpar Hk]. pose proof (same_length _ _ Hpar) as Hlen.
  assert (Hsame : well_formed st
                  /\ (forall e : exn, @Raise unit e = Raise e ->
                        sci_lst st = sci_lst st /\ cal_lst st = cal_lst st
                        /\ tag_lst st = tag_lst st /\ counter st = counter st)).
  { repeat split; assumption. }
  unfold classify_line, mbind, lift.
  destruct (is_group_boundary lines index line) as [[]|e0]; simpl.
  - intros [= <- <-]. split; [|discriminate].
    split; simpl; [now apply new_group_lengths|].
    rewrite length_app; simpl; lia.
  - destruct (list_getitem (PyStr.split_on " " line) 0) as [f0|e1];
      [|intros [= <- <-]; split; [split|]; auto].
    destruct (PyStr.getitem f0 0) as [ch|e2];
      [|intros [= <- <-]; split; [split|]; auto].
    destruct (PyStr.isdigit ch && (2 <? length (PyStr.split_on " " line))
              && (length (PyStr.split_on ":" f0) =? 2));
      [|intros [= <- <-]; split; [split; auto | discriminate]].
    destruct (list_getitem (PyStr.split_on " " line) 1) as [f1|e3];
      [|intros [= <- <-]; split; [split|]; auto].
    destruct (PyStr.contains "cal_" f1).
    + destruct (PyStr.split_on "_" f1) as [|c0 [|tg [|id rest]]] eqn:Es.
      1-3: rewrite record_calibrator_raise by (rewrite Es; simpl; lia);
           intros [= <- <-]; split; [split|]; auto.
      rewrite (record_calibrator_run f1 c0 tg id rest st Es Hk) by lia.
      intros [= <- <-]. split; [|discriminate].
      destruct (double_sci st); split; simpl.
      * apply group_append_lengths, new_group_lengths.
        now apply group_append_lengths.
      * rewrite group_append_length, length_app, group_append_length.
        simpl; lia.
      * now apply group_append_lengths.
      * now rewrite group_append_length.
    + destruct (PyStr.split_on " " line) as [|g0 [|a [|b [|c rest]]]] eqn:Ef.
      1-4: rewrite record_target_short by (simpl; lia);
           intros [= <- <-]; split; [split|]; auto.
      rewrite record_target_run. intros [= <- <-].
      split; [split; assumption | discriminate].
  - intros [= <- <-]. split; [split|]; auto.
Qed.

Section Loop.

Variable lines : list string.

Lemma for_each_app {A} (body : A -> M unit) (l1 l2 : list A) (st : pstate) :
  for_each body (l1 ++ l2) st
  = match for_each body l1 st with
    | (Ok _, st') => for_each body l2 st'
    | (Raise e, st') => (Raise e, st')
    end.
Proof.
  revert st; induction l1 as [|x l1 IH]; intros st; simpl; [reflexivity|].
  unfold mbind. destruct (body x st) as [[[]|e] st1]; [apply IH | reflexivity].
Qed.

(** The loop never ends on an exception. *)
Lemma for_each_loop_total (l : list (nat * string)) (st : pstate) :
  fst (for_each (loop_turn lines) l st) = Ok tt.
Proof.
  revert st; induction l as [|il l IH]; intros st; simpl; [reflexivity|].
  unfold mbind, loop_turn at 1, try_pass. apply IH.
Qed.

Lemma enumerate_from_lookup {A} (l : list A) (n k : nat) (x : A) :
  l !! k = Some x -> enumerate_from n l !! k = Some (n + k, x).
Proof.
  revert n k; induction l as [|y l IH]; intros n [|k]; simpl;
    try discriminate.
  - intros [= ->]. now rewrite Nat.add_0_r.
  - intros H. rewrite (IH (S n) k H). do 2 f_equal. lia.
Qed.

Lemma enumerate_from_length {A} (l : list A) (n : nat) :
  length (enumerate_from n l) = length l.
Proof. revert n; induction l; intros n; simpl; [|rewrite IHl]; reflexivity. Qed.

(** One more turn of the loop is one more line classified under [try]. *)
Lemma state_after_S (k : nat) (line : string) :
  lines !! k = Some line ->
  state_after lines (S k)
  = snd (classify_line lines k line (state_after lines k)).
Proof.
  intros H. unfold state_after, enumerate.
  rewrite (take_S_r _ k (k, line)) by apply (enumerate_from_lookup lines 0 k line H).
  rewrite for_each_app.
  pose proof (for_each_loop_total (take k (enumerate_from 0 lines)) initial_state) as Ht.
  destruct (for_each (loop_turn lines) (take k (enumerate_from 0 lines)) initial_state)
    as [[[]|e] st]; simpl in *; [reflexivity | discriminate].
Qed.

Lemma state_after_end (k : nat) :
  length lines <= k -> state_after lines k = state_after lines (length lines).
Proof.
  intros H. unfold state_after, enumerate.
  rewrite !take_ge by (rewrite enumerate_from_length; lia). reflexivity.
Qed.

Lemma state_after_well_formed (k : nat) : well_formed (state_after lines k).
Proof.
  induction k as [|k IH].
  - unfold state_after; simpl. split; simpl; [reflexivity | lia].
  - destruct (lines !! k) as [line|] eqn:E.
    + rewrite (state_after_S k line E).
      destruct (classify_line lines k line (state_after lines k)) as [r st'] eqn:Ec.
      apply (classify_line_inv _ _ _ _ _ _ IH Ec).
    + apply lookup_ge_None_1 in E.
      rewrite (state_after_end (S k)) by lia.
      now rewrite <- (state_after_end k) by lia.
Qed.

(** The loop ends, in the state reached after its last turn. *)
Lemma classify_final :
  classify lines initial_state = (Ok tt, state_after lines (length lines)).
Proof.
  unfold classify, state_after.
  rewrite take_ge by (unfold enumerate; rewrite enumerate_from_length; lia).
  pose proof (for_each_loop_total (enumerate lines) initial_state) as Ht.
  destruct (for_each (loop_turn lines) (enumerate lines) initial_state)
    as [[[]|e] st]; simpl in *; [reflexivity | discriminate].
Qed.

End Loop.

(** The entry returned is read off the state after the last line. *)
Lemma get_targets_calibrators_tags_run (lines bounded : list string) :
  bounded_lines lines = Ok bounded ->
  get_targets_calibrators_tags lines
  = Ok (let st := state_after bounded (length bounded) in
        mkNightEntry (sci_lst st) (cal_lst st) (tag_lst st)).
Proof.
  intros H. unfold get_targets_calibrators_tags. rewrite H; simpl.
  now rewrite classify_final.
Qed.

Lemma same_shape_lookup (c t : list (list string)) (i : nat) (g h : list string) :
  map length c = map length t ->
  c !! i = Some g -> t !! i = Some h -> length g = length h.
Proof.
  revert t i; induction c as [|g0 c IH]; intros [|h0 t] [|i]; simpl;
    try discriminate.
  - now intros [= H _] [= <-] [= <-].
  - intros [= _ H]. apply IH, H.
Qed.

(** C3.  In every entry [get_targets_calibrators_tags] returns, [CAL] and
    [TAG] have the same length, and the groups at the same index have the
    same length. *)
Theorem cal_tag_same_shape (lines : list string) (entry : NightEntry) :
  get_targets_calibrators_tags lines = Ok entry ->
  length (CAL entry) = length (TAG entry)
  /\ forall (i : nat) (g t : list string),
       CAL entry !! i = Some g -> TAG entry !! i = Some t ->
       length g = length t.
Proof.
  intros H. destruct (bounded_lines lines) as [bounded|e] eqn:Eb.
  - rewrite (get_targets_calibrators_tags_run lines bounded Eb) in H.
    injection H as <-. simpl.
    destruct (state_after_well_formed bounded (length bounded)) as [Hpar _].
    split; [now apply same_length|].
    intros i g t. now apply same_shape_lookup.
  - unfold get_targets_calibrators_tags in H. rewrite Eb in H. discriminate.
Qed.

Lemma cal_tag_same_shape_witness :
  let entry :=
    mkNightEntry ["A B C"; "D E F"; "G H I"]
      [["HD1"]; ["HD1"; "HD2"]; []] [["LN"]; ["LN"; "N"]; []] in
  length (CAL entry) = length (TAG entry)
  /\ forall (i : nat) (g t : list string),
       CAL entry !! i = Some g -> TAG entry !! i = Some t ->
       length g = length t.
Proof.
  apply (cal_tag_same_shape
           [ln "night 1"; ln "1: A B C"; ln "2: D E F"; ln "3: cal_LN_HD1 x";
            nl; ln "4: G H I"; ln "5: cal_N_HD2 x"; ln "calibrator_find"]).
  vm_compute. reflexivity.
Defined.

(** ** Record lines *)

Section Records.

Lemma digit_not_space (c : ascii) :
  PyStr.isdigit_char c = true -> PyStr.isspace c = false.
Proof. destruct c as [[] [] [] [] [] [] [] []]; vm_compute; congruence. Qed.

Lemma append_cons (c : ascii) (s t : string) :
  String c s +:+ t = String c (s +:+ t).
Proof. reflexivity. Qed.

Lemma append_empty_r (s : string) : s +:+ EmptyString = s.
Proof.
  induction s as [|c s IH]; [reflexivity|]. now rewrite append_cons, IH.
Qed.

Lemma append_assoc (s1 s2 s3 : string) :
  (s1 +:+ s2) +:+ s3 = s1 +:+ (s2 +:+ s3).
Proof.
  induction s1 as [|c s1 IH]; [reflexivity|]. now rewrite !append_cons, IH.
Qed.

Lemma split_go_head (s cur : string) :
  cur <> EmptyString ->
  exists more toks, PyStr.split_go s cur = (cur +:+ more) :: toks.
Proof.
  revert cur; induction s as [|c s IH]; intros cur Hcur; simpl.
  - exists EmptyString, []. destruct cur; [congruence|].
    now rewrite append_empty_r.
  - destruct (PyStr.isspace c).
    + exists EmptyString. destruct cur; [congruence|].
      rewrite append_empty_r. eauto.
    + destruct (IH (cur +:+ String c EmptyString)) as (more & toks & H).
      { destruct cur; discriminate. }
      exists (String c more), toks. rewrite H.
      now rewrite append_assoc.
Qed.

(** A line that begins with a digit has a first token that begins with
    it. *)
Lemma first_token_digit (c : ascii) (rest : string) :
  PyStr.isdigit_char c = true ->
  first_token_is_digit (String c rest) = Ok true.
Proof.
  intros Hc. unfold first_token_is_digit, PyStr.split; simpl.
  rewrite (digit_not_space c Hc).
  change (EmptyString +:+ String c EmptyString) with (String c EmptyString).
  destruct (split_go_head rest (String c EmptyString)) as (more & toks & ->);
    [discriminate|].
  rewrite append_cons. simpl. now rewrite Hc.
Qed.


Lemma split_on_head (sep : ascii) (s f0 : string) (fs : list string)
    (c : ascii) (more : string) :
  PyStr.split_on sep s = f0 :: fs -> f0 = String c more ->
  exists rest, s = String c rest.
Proof.
  destruct s as [|d s]; simpl; [congruence|].
  destruct (Ascii.eqb d sep); [congruence|].
  unfold PyStr.cons_head.
  destruct (PyStr.split_on sep s); intros [= <- _] [= ->]; eauto.
Qed.

(** A record line begins with a digit. *)
Lemma record_line_digit (line : string) :
  record_line line = true ->
  exists c rest, line = String c rest /\ PyStr.isdigit_char c = true.
Proof.
  unfold record_line, list_getitem.
  destruct (PyStr.split_on " " line) as [|f0 fs] eqn:Ef; simpl;
    [discriminate|].
  destruct f0 as [|c more]; simpl; [discriminate|].
  intros H. apply andb_true_iff in H as [H _].
  apply andb_true_iff in H as [H _]. apply andb_true_iff in H as [H _].
  destruct (split_on_head _ _ _ _ c more Ef eq_refl) as [rest ->]. eauto.
Qed.

Lemma record_line_not_boundary (lines : list string) (index : nat)
    (line : string) :
  record_line line = true -> is_group_boundary lines index line = Ok false.
Proof.
  intros H. destruct (record_line_digit line H) as (c & rest & -> & Hc).
  unfold is_group_boundary; simpl. now rewrite (first_token_digit c rest Hc).
Qed.

(** A target record is handed to the target branch. *)
Lemma classify_line_target (lines : list string) (index : nat)
    (line : string) (st : pstate) :
  is_target_record line = true ->
  classify_line lines index line st
  = record_target lines index (PyStr.split_on " " line) st.
Proof.
  unfold is_target_record. intros H. apply andb_true_iff in H as [Hr Hc].
  unfold classify_line, mbind, lift.
  rewrite (record_line_not_boundary lines index line Hr).
  revert Hr Hc. unfold record_line, second_field.
  destruct (list_getitem (PyStr.split_on " " line) 0) as [f0|]; [|discriminate].
  destruct (PyStr.getitem f0 0) as [ch|]; [|discriminate].
  intros Hr. rewrite Hr. unfold list_getitem.
  destruct (PyStr.split_on " " line !! 1) as [f1|] eqn:E1.
  - intros Hc. apply negb_true_iff in Hc. now rewrite Hc.
  - intros _. apply lookup_ge_None_1 in E1.
    apply andb_true_iff in Hr as [Hr _]. apply andb_true_iff in Hr as [_ Hr].
    apply Nat.ltb_lt in Hr. lia.
Qed.

(** A calibrator record is handed to the calibrator branch. *)
Lemma classify_line_calibrator (lines : list string) (index : nat)
    (line : string) (st : pstate) :
  is_calibrator_record line = true ->
  classify_line lines index line st = record_calibrator (second_field line) st.
Proof.
  unfold is_calibrator_record. intros H. apply andb_true_iff in H as [Hr Hc].
  unfold classify_line, mbind, lift.
  rewrite (record_line_not_boundary lines index line Hr).
  revert Hr Hc. unfold record_line, second_field.
  destruct (list_getitem (PyStr.split_on " " line) 0) as [f0|]; [|discriminate].
  destruct (PyStr.getitem f0 0) as [ch|]; [|discriminate].
  intros ->.
  destruct (list_getitem (PyStr.split_on " " line) 1) as [f1|] eqn:E1.
  - now intros ->.
  - simpl. discriminate.
Qed.

End Records.

(** C7, as stated, fails: the line ["3: HD 56 Tau"] is recorded with its
    third name field, and the bare line ["2: MY Lup"], which has no third
    field after its prefix, is skipped. *)
Lemma third_name_field_is_kept :
  (get_targets_calibrators_tags [ln "3: HD 56 Tau"; ln "calibrator_find"]
   = Ok (mkNightEntry ["HD 56 Tau"] [[]] [[]])
   /\ ["HD 56 Tau"] <> ["HD 56"])
  /\ get_targets_calibrators_tags ["2: MY Lup"; ln "calibrator_find"]
     = Ok (mkNightEntry [] [[]] [[]]).
Proof.
  split; [split|]; [vm_compute; reflexivity | discriminate | vm_compute; reflexivity].
Qed.

Section GroupLookup.

Lemma group_append_lookup (c : list (list string)) (k : nat) (x : string)
    (g : list string) :
  c !! k = Some g -> group_append c k x !! k = Some (g ++ [x]).
Proof.
  intros H. unfold group_append. now rewrite list_lookup_alter_eq, H.
Qed.

Lemma group_append_lookup_ne (c : list (list string)) (j k : nat) (x : string) :
  j <> k -> group_append c j x !! k = c !! k.
Proof. intros H. unfold group_append. now apply list_lookup_alter_ne. Qed.

End GroupLookup.

(** The turn of the calibrator line ["1: cal_LN_HD12345 extra"], with
    or without its newline: ["HD12345"] is appended to the group of
    [cal_lst] at [counter] and ["LN"] to that of [tag_lst]. *)
Lemma calibrator_line_recorded (lines : list string) (k : nat) (line : string) :
  lines !! k = Some line ->
  line = "1: cal_LN_HD12345 extra" \/ line = ln "1: cal_LN_HD12345 extra" ->
  exists g t : list string,
    cal_lst (state_after lines k) !! counter (state_after lines k) = Some g
    /\ tag_lst (state_after lines k) !! counter (state_after lines k) = Some t
    /\ cal_lst (state_after lines (S k)) !! counter (state_after lines k)
       = Some (g ++ ["HD12345"])
    /\ tag_lst (state_after lines (S k)) !! counter (state_after lines k)
       = Some (t ++ ["LN"])
    /\ counter (state_after lines (S k)) = counter (state_after lines k)
    /\ sci_lst (state_after lines (S k)) = sci_lst (state_after lines k).
Proof.
  intros Hk Hline. rewrite (state_after_S lines k _ Hk).
  destruct (state_after_well_formed lines k) as [Hpar Hc].
  pose proof (same_length _ _ Hpar) as Hlen.
  set (st := state_after lines k) in *.
  assert (Hrec : is_calibrator_record line = true
                 /\ second_field line = "cal_LN_HD12345").
  { destruct Hline as [-> | ->]; split; vm_compute; reflexivity. }
  destruct Hrec as [Hrec Hfield].
  rewrite (classify_line_calibrator lines k line st Hrec), Hfield.
  rewrite (record_calibrator_run "cal_LN_HD12345" "cal" "LN" "HD12345" [] st)
    by (reflexivity || lia).
  destruct (lookup_lt_is_Some_2 (cal_lst st) (counter st) Hc) as [g Hg].
  assert (Hc' : counter st < length (tag_lst st)) by lia.
  destruct (lookup_lt_is_Some_2 (tag_lst st) (counter st) Hc') as [t Ht].
  exists g, t. split; [exact Hg|]. split; [exact Ht|].
  destruct (double_sci st); simpl.
  - rewrite !group_append_lookup_ne by lia.
    rewrite !lookup_app_l by (rewrite group_append_length; lia).
    rewrite (group_append_lookup _ _ _ g Hg), (group_append_lookup _ _ _ t Ht).
    auto.
  - rewrite (group_append_lookup _ _ _ g Hg), (group_append_lookup _ _ _ t Ht).
    auto.
Qed.

Section DoubleSci.

Variable lines : list string.






End DoubleSci.



(** ** Runs of the whole parser *)

(** A skipped target line has made its look-ahead before it raises: the
    flag it has set makes the next calibrator open one more group. *)
Example skipped_target_sets_flag :
  get_targets_calibrators_tags
    [ln "1: A B"; ln "2: D E F"; ln "3: cal_LN_HD1 x"; nl; ln "calibrator_find"]
  = Ok (mkNightEntry ["D E F"] [["HD1"]; ["HD1"]] [["LN"]; ["LN"]]).
Proof. vm_compute. reflexivity. Qed.

(** One run with one night whose last line is ["cal_"]: the plan is
    returned. *)
Example parse_night_plan_one_night :
  parse_night_plan
    (single_file "plan.txt"
       (ln "run 1" +:+ ln "night 2" +:+ ln "1: MY Lup "
        +:+ ln "2: cal_LN_HD12345 extra" +:+ ln "calibrator_find" +:+ "cal_"))
    "plan.txt" "run" "night" false
  = (Ok [("run 1",
          [("night 2", mkNightEntry ["MY Lup"] [["HD12345"]] [["LN"]])])],
     []).
Proof. vm_compute. reflexivity. Qed.

(** A night none of whose lines is ["cal_"] is left out of its run. *)
Example parse_night_plan_night_omitted :
  parse_night_plan
    (single_file "plan.txt"
       (ln "run 1" +:+ ln "night 1" +:+ ln "1: MY Lup "
        +:+ ln "2: cal_LN_HD12345 extra" +:+ ln "calibrator_find"))
    "plan.txt" "run" "night" false
  = (Ok [("run 1", [])], []).
Proof. vm_compute. reflexivity. Qed.

(** Saving evaluates the name [output_path], which is bound nowhere. *)
Example parse_night_plan_save :
  parse_night_plan
    (single_file "plan.txt" (ln "run 1" +:+ ln "night 1"))
    "plan.txt" "run" "night" true
  = (Raise NameError, []).
Proof. vm_compute. reflexivity. Qed.

(** ** More on the sectioner *)

Section SectionerCases.

Variable identifier : string.

Lemma is_marker_raise (line : string) (e : exn) :
  is_marker identifier line = Raise e -> e = IndexError.
Proof.
  unfold is_marker, list_getitem.
  destruct (PyStr.contains identifier (PyStr.lower line)); [|discriminate].
  destruct (PyStr.split line !! 0); simpl; [discriminate | now intros [= <-]].
Qed.

Lemma marker_indices_length (lines : list string) (n : nat) :
  length (marker_indices identifier n lines) = count_markers identifier lines.
Proof.
  unfold count_markers. revert n; induction lines as [|line lines IH];
    intros n; simpl; [reflexivity|].
  destruct (marker_line identifier line); simpl; now rewrite IH.
Qed.

Lemma marker_indices_bound (lines : list string) (n i : nat) :
  In i (marker_indices identifier n lines) -> n <= i < n + length lines.
Proof.
  revert n; induction lines as [|line lines IH]; intros n; simpl; [tauto|].
  destruct (marker_line identifier line); simpl.
  - intros [<- | H]; [lia | apply IH in H; lia].
  - intros H. apply IH in H. lia.
Qed.

(** What the scan returns: the positions of the marker lines and their
    texts without newlines. *)
Lemma scan_found (lines : list string) (n : nat) acc found :
  foldR (scan_step identifier) (enumerate_from n lines) acc = Ok found ->
  fst found = fst acc ++ marker_indices identifier n lines
  /\ snd found
     = snd acc ++ map (PyStr.remove_char newline)
                    (List.filter (marker_line identifier) lines).
Proof.
  revert n acc; induction lines as [|line lines IH]; intros n acc; simpl.
  - intros [= <-]. now rewrite !app_nil_r.
  - unfold scan_step at 1; simpl.
    assert (Hm : marker_line identifier line
                 = match is_marker identifier line with
                   | Ok true => true | _ => false end) by reflexivity.
    rewrite Hm.
    destruct (is_marker identifier line) as [[]|e]; simpl; [| |discriminate].
    + intros H. apply IH in H as [H1 H2]; simpl in *.
      rewrite H1, H2, <- !app_assoc. split; reflexivity.
    + apply IH.
Qed.

Lemma scan_raise (lines : list string) (n : nat) acc (e : exn) :
  foldR (scan_step identifier) (enumerate_from n lines) acc = Raise e ->
  e = IndexError
  /\ exists line, In line lines /\ is_marker identifier line = Raise IndexError.
Proof.
  revert n acc; induction lines as [|line lines IH]; intros n acc; simpl;
    [discriminate|].
  unfold scan_step at 1; simpl.
  destruct (is_marker identifier line) as [m|e'] eqn:Em; simpl.
  - intros H. apply IH in H as [-> (l & Hl & Hr)]. eauto.
  - intros [= <-]. pose proof (is_marker_raise line e' Em) as ->. eauto.
Qed.

Lemma marker_indices_nil (lines : list string) (n : nat) :
  marker_indices identifier n lines = [] ->
  List.filter (marker_line identifier) lines = [].
Proof.
  intros H. apply (f_equal length) in H.
  rewrite marker_indices_length in H. unfold count_markers in H.
  now destruct (List.filter (marker_line identifier) lines).
Qed.

(** The one marker line of an input that has one. *)
Lemma marker_indices_single (lines : list string) (n i : nat) :
  marker_indices identifier n lines = [i] ->
  exists m, lines !! (i - n) = Some m /\ marker_line identifier m = true
            /\ List.filter (marker_line identifier) lines = [m].
Proof.
  revert n; induction lines as [|line lines IH]; intros n; simpl;
    [discriminate|].
  destruct (marker_line identifier line) eqn:Em.
  - intros [= -> H]. exists line. rewrite Nat.sub_diag. simpl.
    now rewrite (marker_indices_nil lines (S i) H).
  - intros H.
    assert (Hb : S n <= i).
    { apply (marker_indices_bound lines (S n) i). rewrite H. now left. }
    destruct (IH (S n) H) as (m & Hm & Ht & Hf). exists m.
    replace (i - n) with (S (i - S n)) by lia. auto.
Qed.

Lemma scan_total (lines : list string) (n : nat) acc :
  nonblank identifier = true ->
  exists found,
    foldR (scan_step identifier) (enumerate_from n lines) acc = Ok found.
Proof.
  intros Hid. revert n acc; induction lines as [|line lines IH];
    intros n acc; simpl; [eauto|].
  unfold scan_step at 1; simpl.
  destruct (is_marker_total identifier line Hid) as [m ->]; simpl. apply IH.
Qed.

(** All the outcomes of [get_file_section]. *)
Lemma get_file_section_cases (lines : list string) :
  match get_file_section lines identifier with
  | Ok sections =>
      (count_markers identifier lines = 0
       /\ sections = [("full_" +:+ identifier, lines)])
      \/ (count_markers identifier lines = 1
          /\ exists i m,
               lines !! i = Some m /\ marker_line identifier m = true
               /\ sections = [(PyStr.remove_char newline m, drop i lines)])
  | Raise e =>
      e = IndexError
      /\ (2 <= count_markers identifier lines
          \/ exists line, In line lines
                          /\ is_marker identifier line = Raise IndexError)
  end.
Proof.
  unfold get_file_section, scan_markers, enumerate.
  destruct (foldR (scan_step identifier) (enumerate_from 0 lines) ([], []))
    as [[indices labels]|e] eqn:Escan; simpl.
  - pose proof (scan_found lines 0 _ _ Escan) as [Hi Hl]; simpl in Hi, Hl.
    pose proof (marker_indices_length lines 0) as Hlen. rewrite <- Hi in Hlen.
    destruct indices as [|i [|i' indices]]; simpl in Hlen.
    + simpl. rewrite drop_0. left. split; [now rewrite <- Hlen | reflexivity].
    + simpl. right. split; [now rewrite <- Hlen|].
      destruct (marker_indices_single lines 0 i (eq_sym Hi)) as (m & Hm & Ht & Hf).
      rewrite Nat.sub_0_r in Hm. rewrite Hf in Hl. subst labels.
      exists i, m. auto.
    + rewrite sections_raise by (simpl; lia). split; [reflexivity|].
      left. rewrite <- Hlen. lia.
  - destruct (scan_raise lines 0 _ _ Escan) as [-> H]. auto.
Qed.

End SectionerCases.

(** The dictionary [get_file_section] returns has one section, cut from
    the input at some line. *)
Lemma get_file_section_one_section_aux
    (lines : list string) (identifier : string)
    (sections : dict (list string)) :
  get_file_section lines identifier = Ok sections ->
  exists label i, sections = [(label, drop i lines)].
Proof.
  intros H. pose proof (get_file_section_cases identifier lines) as Hc.
  rewrite H in Hc. destruct Hc as [[Hn ->] | [Hn (i & m & _ & _ & ->)]].
  - exists ("full_" +:+ identifier), 0. now rewrite drop_0.
  - eauto.
Qed.

(** X1.  Whenever [get_file_section] returns, it returns exactly one
    section, and that section is the input from some line on; the input
    then has at most one marker line. *)
Theorem get_file_section_one_section
    (lines : list string) (identifier : string)
    (sections : dict (list string)) :
  get_file_section lines identifier = Ok sections ->
  count_markers identifier lines <= 1
  /\ exists label i, sections = [(label, drop i lines)].
Proof.
  intros H. pose proof (get_file_section_cases identifier lines) as Hc.
  rewrite H in Hc. destruct Hc as [[Hn ->] | [Hn (i & m & _ & _ & ->)]].
  - split; [lia|]. exists ("full_" +:+ identifier), 0. now rewrite drop_0.
  - split; [lia|]. eauto.
Qed.

Lemma get_file_section_one_section_witness :
  count_markers "night" [ln "header"; ln "Night 1"; ln "a"] <= 1
  /\ exists label i,
       [("Night 1", [ln "Night 1"; ln "a"])]
       = [(label, drop i [ln "header"; ln "Night 1"; ln "a"])].
Proof.
  apply (get_file_section_one_section
           [ln "header"; ln "Night 1"; ln "a"] "night").
  reflexivity.
Defined.

(** X2.  On an input with two marker lines or more, [get_file_section]
    raises [IndexError]. *)
Theorem get_file_section_two_markers_raise
    (lines : list string) (identifier : string) :
  2 <= count_markers identifier lines ->
  get_file_section lines identifier = Raise IndexError.
Proof.
  intros H. pose proof (get_file_section_cases identifier lines) as Hc.
  destruct (get_file_section lines identifier) as [sections|e].
  - destruct Hc as [[Hn _] | [Hn _]]; lia.
  - now destruct Hc as [-> _].
Qed.

Lemma get_file_section_two_markers_raise_witness :
  get_file_section [ln "run 1"; ln "a"; ln "RUN 2"; ln "b"] "run"
  = Raise IndexError.
Proof.
  apply get_file_section_two_markers_raise. vm_compute. lia.
Defined.

(** X3.  For an identifier with a character that is not whitespace,
    [get_file_section] returns a dictionary exactly when the input has at
    most one marker line. *)
Theorem get_file_section_returns_iff
    (lines : list string) (identifier : string) :
  nonblank identifier = true ->
  (exists sections, get_file_section lines identifier = Ok sections)
  <-> count_markers identifier lines <= 1.
Proof.
  intros Hid. pose proof (get_file_section_cases identifier lines) as Hc.
  destruct (get_file_section lines identifier) as [sections|e].
  - split; [|eauto]. intros _. destruct Hc as [[Hn _] | [Hn _]]; lia.
  - destruct Hc as [-> [Hn | (line & _ & Hr)]].
    + split; [intros [? [=]] | lia].
    + destruct (is_marker_total identifier line Hid) as [b Hb]. congruence.
Qed.

Lemma get_file_section_returns_iff_witness :
  (exists sections,
     get_file_section [ln "run 1"; ln "a"; ln "RUN 2"; ln "b"] "run"
     = Ok sections)
  <-> count_markers "run" [ln "run 1"; ln "a"; ln "RUN 2"; ln "b"] <= 1.
Proof.
  apply get_file_section_returns_iff. reflexivity.
Defined.

(** ** More on the assembler *)

Section Assembler.

Lemma contains_element_In (l : list string) (e : string) :
  contains_element l e = true <-> In e l.
Proof.
  unfold contains_element. rewrite existsb_exists. split.
  - intros (x & Hx & He). apply String.eqb_eq in He. now subst.
  - intros H. exists e. split; [exact H | apply String.eqb_refl].
Qed.

Lemma In_drop {A} (x : A) (i : nat) (l : list A) : In x (drop i l) -> In x l.
Proof.
  revert i; induction l as [|y l IH]; intros [|i]; simpl; auto.
  intros H. right. now apply (IH i).
Qed.

Lemma contains_nl_append (s : string) : PyStr.contains nl (s +:+ nl) = true.
Proof.
  induction s as [|c s IH]; [reflexivity|].
  rewrite append_cons. simpl. rewrite IH. apply orb_true_r.
Qed.

(** Every line [readlines] yields but the last ends with a newline. *)
Lemma readlines_go_shape (text cur : string) :
  exists init last,
    readlines_go text cur = init ++ last
    /\ Forall (fun line => exists s, line = s +:+ nl) init
    /\ length last <= 1.
Proof.
  revert cur; induction text as [|c text IH]; intros cur; simpl.
  - exists [], (match cur with EmptyString => [] | _ => [cur] end).
    split; [reflexivity|]. split; [constructor|]. destruct cur; simpl; lia.
  - destruct (Ascii.eqb c newline).
    + destruct (IH EmptyString) as (init & last & -> & Hi & Hl).
      exists ((cur +:+ nl) :: init), last. split; [reflexivity|].
      split; [constructor; eauto | exact Hl].
    + apply IH.
Qed.

Lemma get_targets_raise (lines : list string) (e : exn) :
  get_targets_calibrators_tags lines = Raise e -> e = IndexError.
Proof.
  destruct (bounded_lines lines) as [bounded|e'] eqn:Eb.
  - rewrite (get_targets_calibrators_tags_run lines bounded Eb). discriminate.
  - unfold get_targets_calibrators_tags. rewrite Eb; simpl. intros [= <-].
    revert Eb. unfold bounded_lines, list_getitem.
    destruct (indices_where starts_with_digit (enumerate lines))
      as [starts|e1] eqn:E1; simpl.
    2: { intros [= <-]. apply (indices_where_digit_raise _ _ E1). }
    destruct (starts !! 0); simpl; [|now intros [= <-]].
    destruct (indices_where_total (PyStr.contains "calibrator_find")
                (enumerate lines)) as [ends ->]; simpl.
    destruct (ends !! 0); simpl; [discriminate | now intros [= <-]].
Qed.

(** The plan of a dictionary of sections with one section. *)
Lemma parse_nights_one (sub_label : string) (section : list string) :
  parse_nights [(sub_label, section)]
  = if contains_element section "cal_"
    then match get_targets_calibrators_tags section with
         | Ok entry => Ok [(sub_label, entry)]
         | Raise e => Raise e
         end
    else Ok [].
Proof.
  unfold parse_nights; simpl. destruct (contains_element section "cal_");
    [|reflexivity].
  now destruct (get_targets_calibrators_tags section).
Qed.

(** All the ways [parse_night_plan] returns a plan: the file is there,
    nothing is saved, and the plan has one run, cut from its one section,
    with the one night of that section or none. *)
Lemma parse_night_plan_returns
    (fs : file_system) (path run_identifier sub_identifier : string)
    (save_to_file : bool) (plan : PlanDictionary) (warned : list string) :
  parse_night_plan fs path run_identifier sub_identifier save_to_file
  = (Ok plan, warned) ->
  exists text label sub_label i j,
    fs path = Some (Readable text) /\ save_to_file = false /\ warned = []
    /\ ((contains_element (drop j (drop i (readlines text))) "cal_" = false
         /\ plan = [(label, [])])
        \/ (contains_element (drop j (drop i (readlines text))) "cal_" = true
            /\ exists entry,
                 get_targets_calibrators_tags (drop j (drop i (readlines text)))
                 = Ok entry
                 /\ plan = [(label, [(sub_label, entry)])])).
Proof.
  unfold parse_night_plan, open_readlines.
  destruct (fs path) as [[text|e0]|];
    [|destruct e0; simpl; discriminate|simpl; discriminate].
  destruct (get_file_section (readlines text) run_identifier) as [runs|e] eqn:Er;
    simpl; [|discriminate].
  destruct (get_file_section_one_section_aux _ _ _ Er) as (label & i & ->).
  unfold parse_runs; simpl.
  destruct (get_file_section (drop i (readlines text)) sub_identifier)
    as [subs|e] eqn:Es; simpl; [|discriminate].
  destruct (get_file_section_one_section_aux _ _ _ Es) as (sub_label & j & ->).
  rewrite parse_nights_one.
  destruct (contains_element (drop j (drop i (readlines text))) "cal_") eqn:Ec.
  - destruct (get_targets_calibrators_tags (drop j (drop i (readlines text))))
      as [entry|e] eqn:Et; simpl; [|discriminate].
    destruct save_to_file; simpl; [discriminate|].
    intros [= <- <-]. exists text, label, sub_label, i, j.
    repeat split; auto. right. split; [exact Ec|]. eauto.
  - simpl. destruct save_to_file; simpl; [discriminate|].
    intros [= <- <-]. exists text, label, sub_label, i, j.
    repeat split; auto.
Qed.

Lemma foldR_raise {A S} (P : exn -> Prop) (f : S -> A -> result S)
    (l : list A) (s : S) (e : exn) :
  (forall s x e, f s x = Raise e -> P e) ->
  foldR f l s = Raise e -> P e.
Proof.
  intros Hf. revert s; induction l as [|x l IH]; intros s; simpl;
    [discriminate|].
  destruct (f s x) as [s'|e'] eqn:E; simpl; [apply IH|].
  intros [= <-]. apply (Hf s x e' E).
Qed.

Lemma parse_nights_raise (sub_sections : dict (list string)) (e : exn) :
  parse_nights sub_sections = Raise e -> e = IndexError.
Proof.
  unfold parse_nights. apply (foldR_raise (fun e => e = IndexError)). intros nights item e'.
  destruct (contains_element (snd item) "cal_"); [|discriminate].
  destruct (get_targets_calibrators_tags (snd item)) as [entry|e''] eqn:Et;
    simpl; [discriminate|].
  intros [= <-]. apply (get_targets_raise _ _ Et).
Qed.

Lemma parse_runs_raise (sub_identifier : string) (runs : dict (list string))
    (e : exn) :
  parse_runs sub_identifier runs = Raise e -> e = IndexError.
Proof.
  unfold parse_runs. apply (foldR_raise (fun e => e = IndexError)). intros plan item e'.
  pose proof (get_file_section_cases sub_identifier (snd item)) as Hs.
  destruct (get_file_section (snd item) sub_identifier) as [subs|e1]; simpl.
  - destruct (parse_nights subs) as [nights|e2] eqn:En; simpl; [discriminate|].
    intros [= <-]. apply (parse_nights_raise _ _ En).
  - destruct Hs as [-> _]. now intros [= <-].
Qed.

(** All the ways [parse_night_plan] raises: with [NameError], from the
    handler or from the saving; with [IndexError], from the sections or the
    bounds; or with the exception [open] or [readlines] raised, when that
    is not [FileNotFoundError]. *)
Lemma parse_night_plan_raises
    (fs : file_system) (path run_identifier sub_identifier : string)
    (save_to_file : bool) (e : exn) (warned : list string) :
  parse_night_plan fs path run_identifier sub_identifier save_to_file
  = (Raise e, warned) ->
  warned = []
  /\ (e = NameError \/ e = IndexError
      \/ (fs path = Some (Unreadable e) /\ e <> FileNotFoundError)).
Proof.
  unfold parse_night_plan, open_readlines.
  destruct (fs path) as [[text|e0]|]; [| |simpl; intros [= <- <-]; auto].
  2: { destruct e0; simpl; intros [= <- <-]; split; auto;
       right; right; split; (reflexivity || discriminate). }
  pose proof (get_file_section_cases run_identifier (readlines text)) as Hr.
  destruct (get_file_section (readlines text) run_identifier) as [runs|e1];
    simpl; [|destruct Hr as [-> _]; intros [= <- <-]; auto].
  destruct (parse_runs sub_identifier runs) as [plan|e2] eqn:Ep; simpl.
  - destruct save_to_file; simpl; [|discriminate]. intros [= <- <-]. auto.
  - intros [= <- <-]. pose proof (parse_runs_raise _ _ _ Ep) as ->. auto.
Qed.

(** A string without a newline that is a line of a file is its last
    line. *)
Lemma readlines_last (text element : string) :
  PyStr.contains nl element = false ->
  In element (readlines text) ->
  exists before, readlines text = before ++ [element].
Proof.
  intros Hnl Hin. unfold readlines in *.
  destruct (readlines_go_shape text EmptyString) as (init & last & E & Hi & Hl).
  rewrite E in *. apply in_app_or in Hin as [Hin | Hin].
  - rewrite Forall_forall in Hi.
    destruct (Hi element (proj2 (list_elem_of_In _ _) Hin)) as [s ->].
    now rewrite contains_nl_append in Hnl.
  - destruct last as [|x [|y last]]; simpl in *; [tauto | | lia].
    destruct Hin as [-> | []]. eauto.
Qed.

End Assembler.

(** X4.  A string without a newline is an element of the lines of a file,
    as [contains_element] tests it, only when it is the last line of the
    file, and the file does not end with a newline. *)
Theorem contains_element_readlines_last (text element : string) :
  PyStr.contains nl element = false ->
  contains_element (readlines text) element = true ->
  exists before, readlines text = before ++ [element].
Proof.
  intros Hnl Hin. apply readlines_last; [exact Hnl|].
  now apply contains_element_In.
Qed.

Lemma contains_element_readlines_last_witness :
  exists before,
    readlines (ln "night 2" +:+ ln "1: HD 1 x" +:+ "cal_") = before ++ ["cal_"].
Proof.
  apply (contains_element_readlines_last
           (ln "night 2" +:+ ln "1: HD 1 x" +:+ "cal_") "cal_");
    reflexivity.
Defined.

(** X5.  Every plan [parse_night_plan] returns has exactly one run, and
    that run has one night at most. *)
Theorem parse_night_plan_one_run
    (fs : file_system) (path run_identifier sub_identifier : string)
    (save_to_file : bool) (plan : PlanDictionary) (warned : list string) :
  parse_night_plan fs path run_identifier sub_identifier save_to_file
  = (Ok plan, warned) ->
  exists label nights, plan = [(label, nights)] /\ length nights <= 1.
Proof.
  intros H. apply parse_night_plan_returns in H
    as (text & label & sub_label & i & j & _ & _ & _ & H).
  destruct H as [[_ ->] | [_ (entry & _ & ->)]]; eexists _, _;
    (split; [reflexivity | simpl; lia]).
Qed.

Lemma parse_night_plan_one_run_witness :
  exists label nights,
    [("run 1", [("night 2", mkNightEntry ["MY Lup"] [["HD12345"]] [["LN"]])])]
    = [(label, nights)] /\ length nights <= 1.
Proof.
  apply (parse_night_plan_one_run
           (single_file "plan.txt"
              (ln "run 1" +:+ ln "night 2" +:+ ln "1: MY Lup "
               +:+ ln "2: cal_LN_HD12345 extra" +:+ ln "calibrator_find"
               +:+ "cal_"))
           "plan.txt" "run" "night" false _ []).
  vm_compute. reflexivity.
Defined.

(** X6.  A plan returned for a file holds a night only when the last line
    of the file is exactly ["cal_"], with no newline after it. *)
Theorem parse_night_plan_night_needs_cal_line
    (fs : file_system) (path run_identifier sub_identifier text : string)
    (save_to_file : bool) (plan : PlanDictionary) (warned : list string)
    (label : string) (nights : RunPlan) :
  fs path = Some (Readable text) ->
  parse_night_plan fs path run_identifier sub_identifier save_to_file
  = (Ok plan, warned) ->
  In (label, nights) plan -> nights <> [] ->
  exists before, readlines text = before ++ ["cal_"].
Proof.
  intros Hfs H Hin Hne. apply parse_night_plan_returns in H
    as (text' & l & sl & i & j & Hfs' & _ & _ & H).
  rewrite Hfs in Hfs'. injection Hfs' as <-.
  destruct H as [[_ ->] | [Hc _]].
  - destruct Hin as [[= _ <-] | []]. congruence.
  - apply contains_element_In in Hc. apply In_drop, In_drop in Hc.
    apply (readlines_last text "cal_" eq_refl Hc).
Qed.

Lemma parse_night_plan_night_needs_cal_line_witness :
  exists before,
    readlines (ln "run 1" +:+ ln "night 2" +:+ ln "1: MY Lup "
               +:+ ln "2: cal_LN_HD12345 extra" +:+ ln "calibrator_find"
               +:+ "cal_")
    = before ++ ["cal_"].
Proof.
  apply (parse_night_plan_night_needs_cal_line
           (single_file "plan.txt"
              (ln "run 1" +:+ ln "night 2" +:+ ln "1: MY Lup "
               +:+ ln "2: cal_LN_HD12345 extra" +:+ ln "calibrator_find"
               +:+ "cal_"))
           "plan.txt" "run" "night" _ false
           [("run 1", [("night 2", mkNightEntry ["MY Lup"] [["HD12345"]] [["LN"]])])]
           [] "run 1"
           [("night 2", mkNightEntry ["MY Lup"] [["HD12345"]] [["LN"]])]).
  - reflexivity.
  - vm_compute. reflexivity.
  - left. reflexivity.
  - discriminate.
Defined.

(** X7.  With [save_to_file] set and identifiers that are strings,
    [parse_night_plan] never returns a plan and emits no warning, whatever
    is at the path: it raises the exception
    with which [open] or [readlines] failed, when that is not
    [FileNotFoundError], or [NameError], or [IndexError]. *)
Theorem parse_night_plan_save_raises
    (fs : file_system) (path run_identifier sub_identifier : string) :
  exists e,
    parse_night_plan fs path run_identifier sub_identifier true
    = (Raise e, [])
    /\ (e = NameError \/ e = IndexError
        \/ (fs path = Some (Unreadable e) /\ e <> FileNotFoundError)).
Proof.
  destruct (parse_night_plan fs path run_identifier sub_identifier true)
    as [[plan|e] warned] eqn:E.
  - apply parse_night_plan_returns in E
      as (text & l & sl & i & j & _ & [=] & _).
  - destruct (parse_night_plan_raises _ _ _ _ _ _ _ E) as [-> He]. eauto.
Qed.

(** X8.  For every path, identifiers that are strings and either value of
    [save_to_file], [parse_night_plan] emits no warning, and the only
    exceptions that leave it are [NameError], [IndexError] and the
    exception with which [open] or [readlines] failed at the path;
    [FileNotFoundError] never reaches the caller. *)
Theorem parse_night_plan_never_warns
    (fs : file_system) (path run_identifier sub_identifier : string)
    (save_to_file : bool) :
  snd (parse_night_plan fs path run_identifier sub_identifier save_to_file) = []
  /\ forall e,
       fst (parse_night_plan fs path run_identifier sub_identifier save_to_file)
       = Raise e ->
       e <> FileNotFoundError
       /\ (e = NameError \/ e = IndexError \/ fs path = Some (Unreadable e)).
Proof.
  destruct (parse_night_plan fs path run_identifier sub_identifier save_to_file)
    as [[plan|e] warned] eqn:E; simpl.
  - apply parse_night_plan_returns in E
      as (text & l & sl & i & j & _ & _ & -> & _).
    split; [reflexivity | discriminate].
  - destruct (parse_night_plan_raises _ _ _ _ _ _ _ E) as [-> He].
    split; [reflexivity|]. intros e' [= <-].
    destruct He as [-> | [-> | [Hfs Hne]]];
      (split; [discriminate || exact Hne | auto]).
Qed.

Lemma parse_night_plan_never_warns_witness :
  snd (parse_night_plan
         (fun _ => Some (Unreadable IsADirectoryError)) "plans"
         "run" "night" false) = []
  /\ forall e,
       fst (parse_night_plan
              (fun _ => Some (Unreadable IsADirectoryError)) "plans"
              "run" "night" false)
       = Raise e ->
       e <> FileNotFoundError
       /\ (e = NameError \/ e = IndexError
           \/ (fun _ : string => Some (Unreadable IsADirectoryError)) "plans"
              = Some (Unreadable e)).
Proof.
  apply (parse_night_plan_never_warns
           (fun _ => Some (Unreadable IsADirectoryError)) "plans" "run" "night"
           false).
Defined.

(** X9.  The script never prints anything and emits no warning: whatever
    is at its path, it ends with the exception with which [open] or
    [readlines] failed, when that is not [FileNotFoundError], or with
    [NameError], or with [IndexError]. *)
Theorem main_never_completes (fs : file_system) :
  exists e,
    main fs = (Raise e, [])
    /\ (e = NameError \/ e = IndexError
        \/ (fs (os_path_join "/Users/scheuck/Data/observations/P109/"
                  "september2022/p109_observing_plan_v0.1.txt")
            = Some (Unreadable e)
            /\ e <> FileNotFoundError)).
Proof.
  unfold main.
  destruct (parse_night_plan fs _ "run" "night" true)
    as [[plan|e] warned] eqn:E.
  - apply parse_night_plan_returns in E
      as (text & l & sl & i & j & _ & [=] & _).
  - destruct (parse_night_plan_raises _ _ _ _ _ _ _ E) as [-> He]. eauto.
Qed.

(** ** More on the classifier: one turn of the loop *)

Section Turn.

Variable lines : list string.

(** The four effects one line can have. *)
Lemma classify_line_shape (index : nat) (line : string) (st : pstate) :
  well_formed st ->
  (exists b, snd (classify_line lines index line st) = set_double_sci b st)
  \/ (exists b a b' c,
        snd (classify_line lines index line st)
        = set_sci (sci_lst st ++ [target_name a b' c]) (set_double_sci b st))
  \/ snd (classify_line lines index line st) = after_boundary st
  \/ (exists tg id,
        snd (classify_line lines index line st) = after_calibrator tg id st).
Proof.
  intros [Hpar Hk]. pose proof (same_length _ _ Hpar) as Hlen.
  assert (Hsame : exists b, st = set_double_sci b st)
    by (exists (double_sci st); now rewrite set_double_sci_same).
  unfold classify_line, mbind, lift.
  destruct (is_group_boundary lines index line) as [[]|e0]; simpl.
  - right. right. left. reflexivity.
  - destruct (list_getitem (PyStr.split_on " " line) 0) as [f0|e1]; simpl;
      [|now left].
    destruct (PyStr.getitem f0 0) as [ch|e2]; simpl; [|now left].
    destruct (PyStr.isdigit ch && (2 <? length (PyStr.split_on " " line))
              && (length (PyStr.split_on ":" f0) =? 2)); simpl; [|now left].
    destruct (list_getitem (PyStr.split_on " " line) 1) as [f1|e3]; simpl;
      [|now left].
    destruct (PyStr.contains "cal_" f1).
    + destruct (PyStr.split_on "_" f1) as [|c0 [|tg [|id rest]]] eqn:Es.
      1-3: rewrite record_calibrator_raise by (rewrite Es; simpl; lia);
           now left.
      rewrite (record_calibrator_run f1 c0 tg id rest st Es Hk) by lia.
      right. right. right. exists tg, id. reflexivity.
    + destruct (PyStr.split_on " " line) as [|g0 [|a [|b [|c rest]]]] eqn:Ef.
      1-4: rewrite record_target_short by (simpl; lia); left; eauto.
      rewrite record_target_run. right. left. eauto 6.
  - now left.
Qed.

Lemma group_append_grows (c : list (list string)) (k i : nat) (x : string)
    (g : list string) :
  c !! i = Some g -> exists more, group_append c k x !! i = Some (g ++ more).
Proof.
  intros H. destruct (Nat.eq_dec k i) as [-> | Hne].
  - exists [x]. now apply group_append_lookup.
  - exists []. rewrite group_append_lookup_ne by exact Hne.
    now rewrite app_nil_r.
Qed.

Lemma new_group_grows (c : list (list string)) (i : nat) (g : list string) :
  c !! i = Some g -> (c ++ [[]]) !! i = Some g.
Proof. intros H. now apply lookup_app_l_Some. Qed.

Lemma grows_refl (st : pstate) : grows st st.
Proof.
  repeat split; [exists []; now rewrite app_nil_r | lia | |];
    intros i g H; exists []; now rewrite app_nil_r.
Qed.

Lemma grows_trans (st1 st2 st3 : pstate) :
  grows st1 st2 -> grows st2 st3 -> grows st1 st3.
Proof.
  intros (Hs & Hk & Hc & Ht) (Hs' & Hk' & Hc' & Ht').
  repeat split; [| lia | |].
  - destruct Hs as [m Hm], Hs' as [m' Hm']. exists (m ++ m').
    now rewrite Hm', Hm, app_assoc.
  - intros i g H. destruct (Hc i g H) as [m H1].
    destruct (Hc' i _ H1) as [m' H2]. exists (m ++ m').
    now rewrite app_assoc.
  - intros i g H. destruct (Ht i g H) as [m H1].
    destruct (Ht' i _ H1) as [m' H2]. exists (m ++ m').
    now rewrite app_assoc.
Qed.

Lemma grows_after_calibrator (tg id : string) (st : pstate) :
  grows st (after_calibrator tg id st).
Proof.
  unfold after_calibrator, grows. destruct (double_sci st); simpl.
  - repeat split; [exists []; now rewrite app_nil_r | lia | |];
      intros i g H.
    + destruct (group_append_grows _ (counter st) i id g H) as [m Hm].
      apply new_group_grows in Hm.
      destruct (group_append_grows _ (counter st + 1) i id _ Hm) as [m' Hm'].
      exists (m ++ m'). now rewrite app_assoc.
    + destruct (group_append_grows _ (counter st) i tg g H) as [m Hm].
      apply new_group_grows in Hm.
      destruct (group_append_grows _ (counter st + 1) i tg _ Hm) as [m' Hm'].
      exists (m ++ m'). now rewrite app_assoc.
  - repeat split; [exists []; now rewrite app_nil_r | lia | |];
      intros i g H; now apply group_append_grows.
Qed.

(** One line only adds to what is recorded. *)
Lemma classify_line_grows (index : nat) (line : string) (st : pstate) :
  well_formed st -> grows st (snd (classify_line lines index line st)).
Proof.
  intros Hwf.
  destruct (classify_line_shape index line st Hwf)
    as [[b ->] | [(b & a & b' & c & ->) | [-> | (tg & id & ->)]]].
  - repeat split; simpl; [exists []; now rewrite app_nil_r | lia | |];
      intros i g H; exists []; now rewrite app_nil_r.
  - repeat split; simpl; [eauto | lia | |];
      intros i g H; exists []; now rewrite app_nil_r.
  - repeat split; simpl; [exists []; now rewrite app_nil_r | lia | |];
      intros i g H; exists []; rewrite app_nil_r; now apply new_group_grows.
  - apply grows_after_calibrator.
Qed.

End Turn.

Section Strip.

Lemma lstrip_head (s : string) :
  PyStr.lstrip s = EmptyString
  \/ exists c r, PyStr.lstrip s = String c r /\ PyStr.isspace c = false.
Proof.
  induction s as [|c s IH]; simpl; [now left|].
  destruct (PyStr.isspace c) eqn:E; [exact IH | right; eauto].
Qed.

Lemma rstrip_head (c : ascii) (r : string) :
  PyStr.isspace c = false ->
  PyStr.rstrip (String c r) = String c (PyStr.rstrip r).
Proof. intros H. simpl. rewrite H. now destruct (PyStr.rstrip r). Qed.

Lemma rstrip_idem (s : string) : PyStr.rstrip (PyStr.rstrip s) = PyStr.rstrip s.
Proof.
  induction s as [|c s IH]; simpl; [reflexivity|].
  destruct (PyStr.rstrip s) as [|d t] eqn:E.
  - destruct (PyStr.isspace c) eqn:Ec; simpl; [reflexivity | now rewrite Ec].
  - change (PyStr.rstrip (String c (String d t)))
      with (match PyStr.rstrip (String d t) with
            | EmptyString =>
                if PyStr.isspace c then EmptyString else String c EmptyString
            | r => String c r
            end).
    now rewrite IH.
Qed.

(** [s.strip().strip() == s.strip()]. *)
Lemma strip_idem (s : string) : PyStr.strip (PyStr.strip s) = PyStr.strip s.
Proof.
  unfold PyStr.strip. destruct (lstrip_head s) as [-> | (c & r & -> & Hc)].
  - reflexivity.
  - rewrite (rstrip_head c r Hc). simpl PyStr.lstrip. rewrite Hc.
    rewrite <- (rstrip_head c r Hc). apply rstrip_idem.
Qed.

Lemma target_name_stripped (a b c : string) :
  PyStr.strip (target_name a b c) = target_name a b c.
Proof. unfold target_name. destruct (negb _); apply strip_idem. Qed.

End Strip.

Section Reached.

Variable lines : list string.

Lemma state_after_grows_S (k : nat) :
  grows (state_after lines k) (state_after lines (S k)).
Proof.
  destruct (lines !! k) as [line|] eqn:E.
  - rewrite (state_after_S lines k line E).
    apply classify_line_grows, state_after_well_formed.
  - apply lookup_ge_None_1 in E.
    rewrite (state_after_end lines (S k)) by lia.
    rewrite <- (state_after_end lines k) by lia. apply grows_refl.
Qed.

(** Every name recorded is its own [strip()]. *)
Lemma state_after_stripped (k : nat) :
  Forall (fun name => PyStr.strip name = name) (sci_lst (state_after lines k)).
Proof.
  induction k as [|k IH]; [constructor|].
  destruct (lines !! k) as [line|] eqn:E.
  - rewrite (state_after_S lines k line E).
    destruct (classify_line_shape lines k line (state_after lines k)
                (state_after_well_formed lines k))
      as [[b ->] | [(b & a & b' & c & ->) | [-> | (tg & id & ->)]]]; simpl.
    + exact IH.
    + apply Forall_app. split; [exact IH|].
      repeat constructor. apply target_name_stripped.
    + exact IH.
    + unfold after_calibrator. now destruct (double_sci _).
  - apply lookup_ge_None_1 in E.
    rewrite (state_after_end lines (S k)) by lia.
    now rewrite <- (state_after_end lines k) by lia.
Qed.

End Reached.

(** X10.  A line that is empty, or whose first token does not begin with a
    digit, and that is followed by a line whose first token begins with a
    digit, is a group boundary: the counter moves on by one and one empty
    group is added to [cal_lst] and to [tag_lst]; nothing else changes. *)
Theorem group_boundary_opens_group
    (lines : list string) (k : nat) (line next : string) :
  lines !! k = Some line ->
  lines !! (k + 1) = Some next ->
  line = EmptyString \/ first_token_is_digit line = Ok false ->
  first_token_is_digit next = Ok true ->
  state_after lines (S k) = after_boundary (state_after lines k).
Proof.
  intros Hk Hnext Hline Hdigit. rewrite (state_after_S lines k line Hk).
  assert (Hb : is_group_boundary lines k line = Ok true).
  { unfold is_group_boundary, list_getitem.
    destruct (String.eqb_spec line EmptyString) as [-> | Hne]; simpl.
    - now rewrite Hnext.
    - destruct Hline as [-> | ->]; [congruence|]. simpl. now rewrite Hnext. }
  unfold classify_line, mbind, lift. rewrite Hb. reflexivity.
Qed.

Lemma group_boundary_opens_group_witness :
  state_after [ln "1: cal_LN_HD1 x"; ""; ln "2: HD 2 y"] 2
  = after_boundary (state_after [ln "1: cal_LN_HD1 x"; ""; ln "2: HD 2 y"] 1).
Proof.
  apply (group_boundary_opens_group
           [ln "1: cal_LN_HD1 x"; ""; ln "2: HD 2 y"] 1 "" (ln "2: HD 2 y")).
  - reflexivity.
  - reflexivity.
  - left. reflexivity.
  - reflexivity.
Defined.

(** X11.  A line that is neither a group boundary nor a record line (its
    first field does not begin with a digit, or it has fewer than three
    fields, or its prefix has not exactly one colon) changes nothing. *)
Theorem other_line_ignored (lines : list string) (k : nat) (line : string) :
  lines !! k = Some line ->
  is_group_boundary lines k line <> Ok true ->
  record_line line = false ->
  state_after lines (S k) = state_after lines k.
Proof.
  intros Hk Hb Hr. rewrite (state_after_S lines k line Hk).
  unfold classify_line, mbind, lift. revert Hr. unfold record_line.
  destruct (is_group_boundary lines k line) as [[]|e]; simpl;
    [congruence | | reflexivity].
  destruct (list_getitem (PyStr.split_on " " line) 0) as [f0|e1]; simpl;
    [|reflexivity].
  destruct (PyStr.getitem f0 0) as [ch|e2]; simpl; [|reflexivity].
  now intros ->.
Qed.

Lemma other_line_ignored_witness :
  state_after [ln "1: HD 1 x"; ln "# seeing 0.8"; ln "comment"] 2
  = state_after [ln "1: HD 1 x"; ln "# seeing 0.8"; ln "comment"] 1.
Proof.
  apply (other_line_ignored
           [ln "1: HD 1 x"; ln "# seeing 0.8"; ln "comment"] 1
           (ln "# seeing 0.8")).
  - reflexivity.
  - vm_compute. discriminate.
  - reflexivity.
Defined.

(** X12.  A target record with three fields or more after its prefix adds
    one name to [sci_lst], made of the first two fields and of the third
    when it is not empty, stripped; one with fewer fields adds none.
    Either way the flag is what the look-ahead makes it, and [cal_lst],
    [tag_lst] and the counter stay. *)
Theorem target_record_recorded (lines : list string) (k : nat) (line : string) :
  lines !! k = Some line ->
  is_target_record line = true ->
  state_after lines (S k)
  = let st := set_double_sci (pending_after lines k (state_after lines k))
                (state_after lines k) in
    match PyStr.split_on " " line with
    | _ :: a :: b :: c :: _ => set_sci (sci_lst st ++ [target_name a b c]) st
    | _ => st
    end.
Proof.
  intros Hk Ht. rewrite (state_after_S lines k line Hk).
  rewrite (classify_line_target lines k line _ Ht).
  destruct (PyStr.split_on " " line) as [|f0 [|a [|b [|c rest]]]].
  1-4: now rewrite record_target_short by (simpl; lia).
  now rewrite record_target_run.
Qed.

Lemma target_record_recorded_witness :
  state_after [ln "1: HD 163296 x"; ln "2: cal_LN_HD1 y"] 1
  = let st := set_double_sci
                (pending_after [ln "1: HD 163296 x"; ln "2: cal_LN_HD1 y"] 0
                   (state_after [ln "1: HD 163296 x"; ln "2: cal_LN_HD1 y"] 0))
                (state_after [ln "1: HD 163296 x"; ln "2: cal_LN_HD1 y"] 0) in
    match PyStr.split_on " " (ln "1: HD 163296 x") with
    | _ :: a :: b :: c :: _ => set_sci (sci_lst st ++ [target_name a b c]) st
    | _ => st
    end.
Proof.
  apply (target_record_recorded
           [ln "1: HD 163296 x"; ln "2: cal_LN_HD1 y"] 0 (ln "1: HD 163296 x"));
    reflexivity.
Defined.

(** X13.  A calibrator record whose second field is [cal_<tag>_<id>]
    appends the identifier to the group of [cal_lst] at the counter and the
    tag to that of [tag_lst]; when the flag is set it also opens one more
    group in both and appends the pair to the groups at [counter + 1]; the
    flag ends cleared and [sci_lst] and the counter stay. *)
Theorem calibrator_record_recorded
    (lines : list string) (k : nat) (line tg id : string) :
  lines !! k = Some line ->
  calibrator_of line = Some (tg, id) ->
  state_after lines (S k) = after_calibrator tg id (state_after lines k).
Proof.
  intros Hk Hcal. rewrite (state_after_S lines k line Hk).
  unfold calibrator_of in Hcal.
  destruct (is_calibrator_record line) eqn:Hc; [|discriminate].
  destruct (PyStr.split_on "_" (second_field line))
    as [|c0 [|tg' [|id' rest]]] eqn:Es; try discriminate.
  injection Hcal as -> ->.
  rewrite (classify_line_calibrator lines k line _ Hc).
  destruct (state_after_well_formed lines k) as [Hpar Hlt].
  pose proof (same_length _ _ Hpar) as Hlen.
  now rewrite (record_calibrator_run _ c0 tg id rest _ Es Hlt) by lia.
Qed.

Lemma calibrator_record_recorded_witness :
  state_after [ln "1: HD 1 x"; ln "2: cal_N_HD2 y"] 2
  = after_calibrator "N" "HD2"
      (state_after [ln "1: HD 1 x"; ln "2: cal_N_HD2 y"] 1).
Proof.
  apply (calibrator_record_recorded
           [ln "1: HD 1 x"; ln "2: cal_N_HD2 y"] 1 (ln "2: cal_N_HD2 y"));
    reflexivity.
Defined.

(** X14.  A calibrator record whose second field has no identifier after
    the tag (fewer than three parts between underscores, as in [cal_LN]) is
    skipped: nothing changes, not even the flag. *)
Theorem calibrator_without_identifier_skipped
    (lines : list string) (k : nat) (line : string) :
  lines !! k = Some line ->
  is_calibrator_record line = true ->
  calibrator_of line = None ->
  state_after lines (S k) = state_after lines k.
Proof.
  intros Hk Hc Hnone. rewrite (state_after_S lines k line Hk).
  rewrite (classify_line_calibrator lines k line _ Hc).
  unfold calibrator_of in Hnone. rewrite Hc in Hnone.
  rewrite record_calibrator_raise; [reflexivity|]. left.
  destruct (PyStr.split_on "_" (second_field line)) as [|c0 [|tg [|id rest]]];
    simpl; (lia || discriminate).
Qed.

Lemma calibrator_without_identifier_skipped_witness :
  state_after [ln "1: HD 1 x"; ln "2: cal_LN y"] 2
  = state_after [ln "1: HD 1 x"; ln "2: cal_LN y"] 1.
Proof.
  apply (calibrator_without_identifier_skipped
           [ln "1: HD 1 x"; ln "2: cal_LN y"] 1 (ln "2: cal_LN y"));
    reflexivity.
Defined.

(** X15.  The loop only adds: from one turn to any later one the names
    recorded stay a prefix of [sci_lst], the counter does not decrease, and
    every group of [cal_lst] and of [tag_lst] stays at its index, with its
    entries as a prefix of the later group. *)
Theorem recorded_entries_only_grow (lines : list string) (k k' : nat) :
  k <= k' -> grows (state_after lines k) (state_after lines k').
Proof.
  induction 1 as [|k' _ IH]; [apply grows_refl|].
  apply (grows_trans _ _ _ IH), state_after_grows_S.
Qed.

Lemma recorded_entries_only_grow_witness :
  grows (state_after [ln "1: HD 1 x"; ln "2: cal_N_HD2 y"] 1)
        (state_after [ln "1: HD 1 x"; ln "2: cal_N_HD2 y"] 2).
Proof.
  apply (recorded_entries_only_grow [ln "1: HD 1 x"; ln "2: cal_N_HD2 y"] 1 2).
  lia.
Defined.

(** X16.  Every name in the [SCI] list of a returned entry has no
    whitespace at either end: it is its own [strip()]. *)
Theorem sci_names_stripped (lines : list string) (entry : NightEntry) :
  get_targets_calibrators_tags lines = Ok entry ->
  Forall (fun name => PyStr.strip name = name) (SCI entry).
Proof.
  intros H. destruct (bounded_lines lines) as [bounded|e] eqn:Eb.
  - rewrite (get_targets_calibrators_tags_run lines bounded Eb) in H.
    injection H as <-. simpl. apply state_after_stripped.
  - unfold get_targets_calibrators_tags in H. rewrite Eb in H. discriminate.
Qed.

Lemma sci_names_stripped_witness :
  Forall (fun name => PyStr.strip name = name)
    (SCI (mkNightEntry ["MY Lup"; "HD 56 Tau"] [[]] [[]])).
Proof.
  apply (sci_names_stripped
           [ln "1:  MY Lup   x"; ln "2: HD 56 Tau"; ln "calibrator_find"]).
  vm_compute. reflexivity.
Defined.

(** ** More on the bounds *)

Section FirstIndex.

Lemma starts_with_digit_cons (c : ascii) (r : string) :
  starts_with_digit (String c r) = Ok (PyStr.isdigit_char c).
Proof. unfold starts_with_digit; simpl. now rewrite andb_true_r. Qed.

Lemma starts_with_digit_nonempty (line : string) :
  line <> EmptyString -> starts_with_digit line = Ok (begins_with_digit line).
Proof.
  destruct line as [|c r]; [congruence|]. intros _.
  apply starts_with_digit_cons.
Qed.

(** The first element of a comprehension of indices is the first index
    that passes the test. *)
Lemma indices_where_first (test : string -> result bool) (f : string -> bool)
    (lines : list string) (n : nat) :
  Forall (fun line => test line = Ok (f line)) lines ->
  exists found,
    indices_where test (enumerate_from n lines) = Ok found
    /\ found !! 0 = first_index_from f n lines.
Proof.
  intros H; revert n; induction H as [|line lines Hl _ IH]; intros n; simpl.
  - now exists [].
  - rewrite Hl; simpl. destruct (IH (S n)) as (found & -> & Hf); simpl.
    destruct (f line); [now exists (n :: found) | now exists found].
Qed.

(** An empty string among the lines stops the first comprehension. *)
Lemma indices_where_empty_line (lines : list string) (n : nat) :
  In EmptyString lines ->
  indices_where starts_with_digit (enumerate_from n lines) = Raise IndexError.
Proof.
  revert n; induction lines as [|line lines IH]; intros n; simpl; [tauto|].
  destruct line as [|c r].
  - reflexivity.
  - intros [[=] | H]. rewrite starts_with_digit_cons; simpl.
    now rewrite (IH (S n) H).
Qed.

(** The bounded lines of an input without empty strings that has a line
    beginning with a digit and a line with ["calibrator_find"]. *)
Lemma bounded_lines_first (lines : list string) (i j : nat) :
  Forall (fun line => line <> EmptyString) lines ->
  first_index begins_with_digit lines = Some i ->
  first_index (PyStr.contains "calibrator_find") lines = Some j ->
  bounded_lines lines
  = Ok (map (fun line => if String.eqb line nl then EmptyString else line)
          (slice lines i j)).
Proof.
  intros Hne Hi Hj. unfold bounded_lines, enumerate, list_getitem.
  destruct (indices_where_first starts_with_digit begins_with_digit lines 0)
    as (starts & -> & Hs).
  { eapply Forall_impl; [exact Hne|]. intros line.
    apply starts_with_digit_nonempty. }
  simpl. unfold first_index in Hi, Hj. rewrite Hs, Hi; simpl.
  destruct (indices_where_first
              (fun line => Ok (PyStr.contains "calibrator_find" line))
              (PyStr.contains "calibrator_find") lines 0)
    as (ends & -> & He).
  { apply Forall_forall. reflexivity. }
  simpl. now rewrite He, Hj.
Qed.

End FirstIndex.

(** X17.  An input that holds an empty string makes
    [get_targets_calibrators_tags] raise [IndexError], whatever its other
    lines: [line[0]] is evaluated on every line. *)
Theorem empty_line_raises (lines : list string) :
  In EmptyString lines ->
  get_targets_calibrators_tags lines = Raise IndexError.
Proof.
  intros H. unfold get_targets_calibrators_tags, bounded_lines, enumerate.
  now rewrite (indices_where_empty_line lines 0 H).
Qed.

Lemma empty_line_raises_witness :
  get_targets_calibrators_tags
    [ln "1: HD 1 x"; ln "2: cal_LN_HD2 y"; ""; ln "calibrator_find"]
  = Raise IndexError.
Proof.
  apply empty_line_raises. right. right. left. reflexivity.
Defined.

(** X18.  On an input without empty strings, with [i] the index of the
    first line that begins with a digit and [j] that of the first line
    that contains ["calibrator_find"], the lines classified are the lines
    [i] to [j - 1], each line that is only a newline replaced by the empty
    string, and an entry is returned. *)
Theorem bounded_interval (lines : list string) (i j : nat) :
  Forall (fun line => line <> EmptyString) lines ->
  first_index begins_with_digit lines = Some i ->
  first_index (PyStr.contains "calibrator_find") lines = Some j ->
  bounded_lines lines
  = Ok (map (fun line => if String.eqb line nl then EmptyString else line)
          (slice lines i j))
  /\ exists entry, get_targets_calibrators_tags lines = Ok entry.
Proof.
  intros Hne Hi Hj. pose proof (bounded_lines_first lines i j Hne Hi Hj) as Hb.
  split; [exact Hb|].
  rewrite (get_targets_calibrators_tags_run lines _ Hb). eauto.
Qed.

Lemma bounded_interval_witness :
  bounded_lines [ln "night 1"; ln "1: HD 1 x"; nl; ln "calibrator_find"; ln "z"]
  = Ok (map (fun line => if String.eqb line nl then EmptyString else line)
          (slice [ln "night 1"; ln "1: HD 1 x"; nl; ln "calibrator_find"; ln "z"]
             1 3))
  /\ exists entry,
       get_targets_calibrators_tags
         [ln "night 1"; ln "1: HD 1 x"; nl; ln "calibrator_find"; ln "z"]
       = Ok entry.
Proof.
  apply (bounded_interval
           [ln "night 1"; ln "1: HD 1 x"; nl; ln "calibrator_find"; ln "z"] 1 3).
  - repeat constructor; discriminate.
  - reflexivity.
  - reflexivity.
Defined.

(** X19.  On an input without empty strings, when the first line with
    ["calibrator_find"] does not come after the first line that begins
    with a digit, nothing is classified: the entry returned has no name
    and one empty group. *)
Theorem empty_interval_empty_entry (lines : list string) (i j : nat) :
  Forall (fun line => line <> EmptyString) lines ->
  first_index begins_with_digit lines = Some i ->
  first_index (PyStr.contains "calibrator_find") lines = Some j ->
  j <= i ->
  get_targets_calibrators_tags lines = Ok (mkNightEntry [] [[]] [[]]).
Proof.
  intros Hne Hi Hj Hle.
  rewrite (get_targets_calibrators_tags_run lines _
             (bounded_lines_first lines i j Hne Hi Hj)).
  unfold slice. rewrite drop_ge by (rewrite length_take; lia). reflexivity.
Qed.

Lemma empty_interval_empty_entry_witness :
  get_targets_calibrators_tags
    [ln "calibrator_find, /night1"; ln "1: HD 1 x"; ln "2: cal_LN_HD2 y"]
  = Ok (mkNightEntry [] [[]] [[]]).
Proof.
  apply (empty_interval_empty_entry
           [ln "calibrator_find, /night1"; ln "1: HD 1 x"; ln "2: cal_LN_HD2 y"]
           1 0).
  - repeat constructor; discriminate.
  - reflexivity.
  - reflexivity.
  - lia.
Defined.

(** ** Further consequences *)

Section Lower.

Lemma lower_char_idem (c : ascii) :
  PyStr.lower_char (PyStr.lower_char c) = PyStr.lower_char c.
Proof. destruct c as [[] [] [] [] [] [] [] []]; vm_compute; reflexivity. Qed.

Lemma lower_idem (s : string) : PyStr.lower (PyStr.lower s) = PyStr.lower s.
Proof.
  induction s as [|c s IH]; simpl; [reflexivity|].
  now rewrite lower_char_idem, IH.
Qed.

(** A marker line is only found for an identifier in lower case. *)
Lemma is_marker_lower (identifier line : string) :
  is_marker identifier line = Ok true -> PyStr.lower identifier = identifier.
Proof.
  unfold is_marker.
  destruct (PyStr.contains identifier (PyStr.lower line)); [|discriminate].
  destruct (list_getitem (PyStr.split line) 0) as [tok|]; simpl;
    [|discriminate].
  intros [= H]. apply String.eqb_eq in H. rewrite <- H. apply lower_idem.
Qed.

Lemma readlines_go_terminated (text cur : string) :
  Forall (fun line => exists s, line = s +:+ nl)
    (readlines_go (text +:+ nl) cur).
Proof.
  revert cur; induction text as [|c text IH]; intros cur.
  - change (readlines_go (EmptyString +:+ nl) cur) with [cur +:+ nl].
    repeat constructor. eauto.
  - rewrite append_cons. simpl. destruct (Ascii.eqb c newline).
    + constructor; [eauto | apply IH].
    + apply IH.
Qed.

End Lower.

(** X20.  The [CAL] and [TAG] lists of a returned entry are never empty:
    the first group is always there. *)
Theorem entry_has_a_group (lines : list string) (entry : NightEntry) :
  get_targets_calibrators_tags lines = Ok entry ->
  exists g t, CAL entry !! 0 = Some g /\ TAG entry !! 0 = Some t.
Proof.
  intros H. destruct (bounded_lines lines) as [bounded|e] eqn:Eb.
  - rewrite (get_targets_calibrators_tags_run lines bounded Eb) in H.
    injection H as <-. simpl.
    destruct (state_after_well_formed bounded (length bounded)) as [Hpar Hk].
    pose proof (same_length _ _ Hpar) as Hlen.
    destruct (lookup_lt_is_Some_2 (cal_lst (state_after bounded (length bounded))) 0)
      as [g Hg]; [lia|].
    destruct (lookup_lt_is_Some_2 (tag_lst (state_after bounded (length bounded))) 0)
      as [t Ht]; [lia|].
    eauto.
  - unfold get_targets_calibrators_tags in H. rewrite Eb in H. discriminate.
Qed.

Lemma entry_has_a_group_witness :
  exists g t,
    CAL (mkNightEntry ["MY Lup"] [["HD1"]] [["LN"]]) !! 0 = Some g
    /\ TAG (mkNightEntry ["MY Lup"] [["HD1"]] [["LN"]]) !! 0 = Some t.
Proof.
  apply (entry_has_a_group
           [ln "1: MY Lup  x"; ln "2: cal_LN_HD1 y"; ln "calibrator_find"]).
  vm_compute. reflexivity.
Defined.

(** X21.  For a file whose text ends with a newline, every plan
    [parse_night_plan] returns has one run and no night in it: no line of
    such a file is exactly ["cal_"]. *)
Theorem newline_terminated_file_has_no_night
    (fs : file_system) (path run_identifier sub_identifier text : string)
    (save_to_file : bool) (plan : PlanDictionary) (warned : list string) :
  fs path = Some (Readable (text +:+ nl)) ->
  parse_night_plan fs path run_identifier sub_identifier save_to_file
  = (Ok plan, warned) ->
  exists label, plan = [(label, [])].
Proof.
  intros Hfs H. apply parse_night_plan_returns in H
    as (text' & l & sl & i & j & Hfs' & _ & _ & H).
  rewrite Hfs in Hfs'. injection Hfs' as <-.
  destruct H as [[_ ->] | [Hc _]]; [eauto|].
  apply contains_element_In in Hc. apply In_drop, In_drop in Hc.
  pose proof (readlines_go_terminated text EmptyString) as Hall.
  rewrite Forall_forall in Hall.
  destruct (Hall "cal_" (proj2 (list_elem_of_In _ _) Hc)) as [s Hs].
  pose proof (contains_nl_append s) as Hn. rewrite <- Hs in Hn. discriminate.
Qed.

Lemma newline_terminated_file_has_no_night_witness :
  exists label, [("run 1", @nil (string * NightEntry))] = [(label, [])].
Proof.
  apply (newline_terminated_file_has_no_night
           (single_file "plan.txt"
              (ln "run 1" +:+ ln "night 1" +:+ ln "1: MY Lup "
               +:+ ln "2: cal_LN_HD12345 extra" +:+ "calibrator_find" +:+ nl))
           "plan.txt" "run" "night"
           (ln "run 1" +:+ ln "night 1" +:+ ln "1: MY Lup "
            +:+ ln "2: cal_LN_HD12345 extra" +:+ "calibrator_find")
           false _ []).
  - reflexivity.
  - vm_compute. reflexivity.
Defined.

(** X22.  An identifier that is not in lower case matches no line: with a
    character that is not whitespace in it, [get_file_section] returns the
    whole input under ["full_" + identifier], whatever the lines. *)
Theorem get_file_section_identifier_not_lower
    (lines : list string) (identifier : string) :
  nonblank identifier = true ->
  PyStr.lower identifier <> identifier ->
  get_file_section lines identifier = Ok [("full_" +:+ identifier, lines)].
Proof.
  intros Hid Hlow.
  assert (H : Forall (fun line => is_marker identifier line = Ok false) lines).
  { apply Forall_forall. intros line _.
    destruct (is_marker_total identifier line Hid) as [[] Hb]; [|exact Hb].
    now apply is_marker_lower in Hb. }
  unfold get_file_section, scan_markers, enumerate.
  rewrite (scan_no_marker identifier lines 0 _ H). reflexivity.
Qed.

Lemma get_file_section_identifier_not_lower_witness :
  get_file_section [ln "Run 1"; ln "a"; ln "Run 2"] "Run"
  = Ok [("full_Run", [ln "Run 1"; ln "a"; ln "Run 2"])].
Proof.
  apply get_file_section_identifier_not_lower; [reflexivity|].
  vm_compute. discriminate.
Defined.

(** * The claims about lines, on the entry returned *)

Section Entry.

Variable lines : list string.

Lemma for_each_loop_grows (l : list (nat * string)) (st : pstate) :
  well_formed st ->
  well_formed (snd (for_each (loop_turn lines) l st))
  /\ grows st (snd (for_each (loop_turn lines) l st)).
Proof.
  revert st; induction l as [|[index line] l IH]; intros st Hwf; simpl.
  - split; [exact Hwf | apply grows_refl].
  - unfold mbind, loop_turn at 1 3, try_pass; simpl.
    destruct (classify_line lines index line st) as [r st1] eqn:E; simpl.
    destruct (classify_line_inv _ _ _ _ _ _ Hwf E) as [Hwf1 _].
    pose proof (classify_line_grows lines index line st Hwf) as Hg.
    rewrite E in Hg; simpl in Hg.
    destruct (IH st1 Hwf1) as [Hwf2 Hg2].
    split; [exact Hwf2 | exact (grows_trans _ _ _ Hg Hg2)].
Qed.

(** What the rest of the pass makes of a state only adds to it. *)
Lemma rest_of_pass_grows (k : nat) (st : pstate) :
  well_formed st -> grows st (rest_of_pass lines k st).
Proof. intros Hwf. apply for_each_loop_grows, Hwf. Qed.

(** The pass is its first [k] turns followed by the rest. *)
Lemma rest_of_pass_state_after (k : nat) :
  rest_of_pass lines k (state_after lines k)
  = state_after lines (length lines).
Proof.
  pose proof (classify_final lines) as Hf. unfold classify in Hf.
  rewrite <- (take_drop k (enumerate lines)) in Hf at 1.
  rewrite for_each_app in Hf. unfold rest_of_pass, state_after at 1.
  pose proof (for_each_loop_total lines (take k (enumerate lines))
                initial_state) as Ht.
  destruct (for_each (loop_turn lines) (take k (enumerate lines))
              initial_state) as [[[]|e] st1]; simpl in *; [|discriminate].
  now rewrite Hf.
Qed.

(** A line that raises has changed nothing, or is a target record that
    has made its look-ahead and lacks a third field after its prefix. *)
Lemma classify_line_raise_shape (index : nat) (line : string)
    (st st' : pstate) (e : exn) :
  well_formed st ->
  classify_line lines index line st = (Raise e, st') ->
  st' = st
  \/ (is_target_record line = true
      /\ length (PyStr.split_on " " line) = 3
      /\ st' = set_double_sci (pending_after lines index st) st).
Proof.
  intros [Hpar Hk]. pose proof (same_length _ _ Hpar) as Hlen.
  unfold classify_line, mbind, lift.
  destruct (is_group_boundary lines index line) as [[]|e0]; simpl;
    [discriminate | | intros [= _ <-]; now left].
  unfold is_target_record, record_line, second_field.
  destruct (list_getitem (PyStr.split_on " " line) 0) as [f0|e1]; simpl;
    [|intros [= _ <-]; now left].
  destruct (PyStr.getitem f0 0) as [ch|e2]; simpl;
    [|intros [= _ <-]; now left].
  destruct (PyStr.isdigit ch && (2 <? length (PyStr.split_on " " line))
            && (length (PyStr.split_on ":" f0) =? 2)) eqn:Ec; simpl;
    [|discriminate].
  destruct (list_getitem (PyStr.split_on " " line) 1) as [f1|e3]; simpl;
    [|intros [= _ <-]; now left].
  destruct (PyStr.contains "cal_" f1); simpl.
  - destruct (PyStr.split_on "_" f1) as [|c0 [|tg [|id rest]]] eqn:Es.
    1-3: rewrite record_calibrator_raise by (rewrite Es; simpl; lia);
         intros [= _ <-]; now left.
    rewrite (record_calibrator_run f1 c0 tg id rest st Es Hk) by lia.
    discriminate.
  - apply andb_true_iff in Ec as [Ec _]. apply andb_true_iff in Ec as [_ Ec].
    apply Nat.ltb_lt in Ec.
    destruct (PyStr.split_on " " line) as [|g0 [|a [|b [|c rest]]]] eqn:Ef;
      simpl in Ec; try lia.
    + rewrite record_target_short by (simpl; lia). intros [= _ <-].
      right. auto.
    + rewrite record_target_run. discriminate.
Qed.

End Entry.

(** The entry returned is the one the rest of the pass gives from the
    state reached after any number of turns. *)
Lemma get_targets_rest (input lines : list string) (k : nat) :
  bounded_lines input = Ok lines ->
  get_targets_calibrators_tags input
  = Ok (entry_of (rest_of_pass lines k (state_after lines k))).
Proof.
  intros Hb. rewrite (get_targets_calibrators_tags_run input lines Hb).
  now rewrite rest_of_pass_state_after.
Qed.

(** C5, as stated, fails: the target line ["1: A B"] raises at [line[3]],
    after its look-ahead has set the flag; the entry returned has one more
    group in [CAL] and [TAG] than the other turns give from the state the
    line was met in. *)
Lemma raising_line_changes_entry :
  let lines := [ln "1: A B"; ln "2: D E F"; ln "3: cal_LN_HD1 x"; ""] in
  classify_line lines 0 (ln "1: A B") (state_after lines 0)
  = (Raise IndexError, set_double_sci true initial_state)
  /\ get_targets_calibrators_tags
       [ln "1: A B"; ln "2: D E F"; ln "3: cal_LN_HD1 x"; nl;
        ln "calibrator_find"]
     = Ok (mkNightEntry ["D E F"] [["HD1"]; ["HD1"]] [["LN"]; ["LN"]])
  /\ entry_of (rest_of_pass lines 1 (state_after lines 0))
     = mkNightEntry ["D E F"] [["HD1"]] [["LN"]]
  /\ CAL (mkNightEntry ["D E F"] [["HD1"]; ["HD1"]] [["LN"]; ["LN"]])
     <> CAL (entry_of (rest_of_pass lines 1 (state_after lines 0))).
Proof.
  split; [vm_compute; reflexivity|]. split; [vm_compute; reflexivity|].
  split; [vm_compute; reflexivity|]. vm_compute. discriminate.
Qed.

(** C5, amended.  In the classification pass over the bounded lines of any
    input, a line whose processing raises appends nothing to [sci_lst],
    [cal_lst] or [tag_lst] and leaves the counter; the loop goes on with
    the next line and the pass ends without an exception: the entry
    returned is the one the lines after it give from the state the line
    leaves.  That state is the state the line was met in, unless the line
    is a target record with only two fields after its prefix: such a line
    has made its look-ahead before it raises, and leaves the flag as the
    look-ahead sets it. *)
Theorem raising_line_only_sets_flag
    (input lines : list string) (k : nat) (line : string) (e : exn)
    (st' : pstate) :
  bounded_lines input = Ok lines ->
  lines !! k = Some line ->
  classify_line lines k line (state_after lines k) = (Raise e, st') ->
  (st' = state_after lines k
   \/ (is_target_record line = true
       /\ length (PyStr.split_on " " line) = 3
       /\ st' = set_double_sci
                  (pending_after lines k (state_after lines k))
                  (state_after lines k)))
  /\ (sci_lst st' = sci_lst (state_after lines k)
      /\ cal_lst st' = cal_lst (state_after lines k)
      /\ tag_lst st' = tag_lst (state_after lines k)
      /\ counter st' = counter (state_after lines k))
  /\ state_after lines (S k) = st'
  /\ get_targets_calibrators_tags input
     = Ok (entry_of (rest_of_pass lines (S k) st')).
Proof.
  intros Hb Hk Hraise.
  pose proof (state_after_well_formed lines k) as Hwf.
  assert (HS : state_after lines (S k) = st')
    by (rewrite (state_after_S lines k line Hk), Hraise; reflexivity).
  split; [exact (classify_line_raise_shape lines k line _ _ e Hwf Hraise)|].
  split.
  - destruct (classify_line_inv _ _ _ _ _ _ Hwf Hraise) as [_ H].
    exact (H e eq_refl).
  - split; [exact HS|]. rewrite <- HS. apply get_targets_rest, Hb.
Qed.

Lemma raising_line_only_sets_flag_witness :
  let input := [ln "1: A B"; ln "2: D E F"; ln "3: cal_LN_HD1 x"; nl;
                ln "calibrator_find"] in
  let lines := [ln "1: A B"; ln "2: D E F"; ln "3: cal_LN_HD1 x"; ""] in
  let st' := set_double_sci true initial_state in
  (st' = state_after lines 0
   \/ (is_target_record (ln "1: A B") = true
       /\ length (PyStr.split_on " " (ln "1: A B")) = 3
       /\ st' = set_double_sci
                  (pending_after lines 0 (state_after lines 0))
                  (state_after lines 0)))
  /\ (sci_lst st' = sci_lst (state_after lines 0)
      /\ cal_lst st' = cal_lst (state_after lines 0)
      /\ tag_lst st' = tag_lst (state_after lines 0)
      /\ counter st' = counter (state_after lines 0))
  /\ state_after lines 1 = st'
  /\ get_targets_calibrators_tags input
     = Ok (entry_of (rest_of_pass lines 1 st')).
Proof.
  apply (raising_line_only_sets_flag
           [ln "1: A B"; ln "2: D E F"; ln "3: cal_LN_HD1 x"; nl;
            ln "calibrator_find"]
           [ln "1: A B"; ln "2: D E F"; ln "3: cal_LN_HD1 x"; ""]
           0 (ln "1: A B") IndexError (set_double_sci true initial_state)).
  - vm_compute. reflexivity.
  - reflexivity.
  - vm_compute. reflexivity.
Defined.

(** C7, amended.  In the bounded lines of any input, with or without its
    newline, the target line ["2: MY Lup "], whose third field after the
    prefix is there and holds no name, yields the [SCI] entry ["MY Lup"];
    the target line ["3: HD 56 Tau"] yields ["HD 56 Tau"]: a third field
    that is not empty is joined to the name; and the bare line
    ["2: MY Lup"], which has no third field, is skipped and yields no
    entry.  The entry returned is the one the lines after it give from the
    state the line was met in, with what the line yields added to its
    names and the flag as the look-ahead leaves it: what the line yields
    comes in [SCI] right after the names of the lines before it. *)
Theorem target_line_in_entry
    (input lines : list string) (k : nat) (body eol : string)
    (yielded : list string) :
  bounded_lines input = Ok lines ->
  lines !! k = Some (body +:+ eol) ->
  eol = EmptyString \/ eol = nl ->
  (body = "2: MY Lup " /\ yielded = ["MY Lup"])
  \/ (body = "3: HD 56 Tau" /\ yielded = ["HD 56 Tau"])
  \/ (body = "2: MY Lup" /\ yielded = []) ->
  exists entry pending later,
    get_targets_calibrators_tags input = Ok entry
    /\ entry
       = entry_of
           (rest_of_pass lines (S k)
              (set_sci (sci_lst (state_after lines k) ++ yielded)
                 (set_double_sci pending (state_after lines k))))
    /\ SCI entry = sci_lst (state_after lines k) ++ yielded ++ later.
Proof.
  intros Hb Hk Heol Hbody.
  set (st := state_after lines k).
  assert (HS : state_after lines (S k)
               = set_sci (sci_lst st ++ yielded)
                   (set_double_sci (pending_after lines k st) st)).
  { rewrite (state_after_S lines k _ Hk). fold st.
    assert (Ht : is_target_record (body +:+ eol) = true).
    { destruct Heol as [-> | ->];
        destruct Hbody as [[-> _] | [[-> _] | [-> _]]];
        vm_compute; reflexivity. }
    rewrite (classify_line_target lines k _ st Ht).
    destruct Heol as [-> | ->];
      destruct Hbody as [[-> ->] | [[-> ->] | [-> ->]]].
    - change (PyStr.split_on " " ("2: MY Lup " +:+ ""))
        with ["2:"; "MY"; "Lup"; ""].
      rewrite record_target_run. reflexivity.
    - change (PyStr.split_on " " ("3: HD 56 Tau" +:+ ""))
        with ["3:"; "HD"; "56"; "Tau"].
      rewrite record_target_run. reflexivity.
    - change (PyStr.split_on " " ("2: MY Lup" +:+ "")) with ["2:"; "MY"; "Lup"].
      rewrite record_target_short by (simpl; lia).
      simpl. rewrite app_nil_r. now destruct st.
    - change (PyStr.split_on " " ("2: MY Lup " +:+ nl))
        with ["2:"; "MY"; "Lup"; nl].
      rewrite record_target_run. reflexivity.
    - change (PyStr.split_on " " ("3: HD 56 Tau" +:+ nl))
        with ["3:"; "HD"; "56"; ln "Tau"].
      rewrite record_target_run. reflexivity.
    - change (PyStr.split_on " " ("2: MY Lup" +:+ nl))
        with ["2:"; "MY"; ln "Lup"].
      rewrite record_target_short by (simpl; lia).
      simpl. rewrite app_nil_r. now destruct st. }
  pose proof (state_after_well_formed lines (S k)) as Hwf.
  pose proof (rest_of_pass_grows lines (S k) _ Hwf) as ((later & Hl) & _).
  rewrite HS in Hl; simpl in Hl.
  exists (entry_of (rest_of_pass lines (S k) (state_after lines (S k)))),
    (pending_after lines k st), later.
  split; [apply get_targets_rest, Hb|]. rewrite HS.
  split; [reflexivity|]. simpl. rewrite Hl. now rewrite <- app_assoc.
Qed.

Lemma target_line_in_entry_witness :
  let input := [ln "night 1"; ln "1: cal_N_HD9 x"; ln "3: HD 56 Tau";
                ln "2: MY Lup "; ln "calibrator_find"] in
  let lines := [ln "1: cal_N_HD9 x"; ln "3: HD 56 Tau"; ln "2: MY Lup "] in
  exists entry pending later,
    get_targets_calibrators_tags input = Ok entry
    /\ entry
       = entry_of
           (rest_of_pass lines 2
              (set_sci (sci_lst (state_after lines 1) ++ ["HD 56 Tau"])
                 (set_double_sci pending (state_after lines 1))))
    /\ SCI entry = sci_lst (state_after lines 1) ++ ["HD 56 Tau"] ++ later.
Proof.
  apply (target_line_in_entry
           [ln "night 1"; ln "1: cal_N_HD9 x"; ln "3: HD 56 Tau";
            ln "2: MY Lup "; ln "calibrator_find"]
           [ln "1: cal_N_HD9 x"; ln "3: HD 56 Tau"; ln "2: MY Lup "]
           1 "3: HD 56 Tau" nl ["HD 56 Tau"]).
  - vm_compute. reflexivity.
  - reflexivity.
  - right. reflexivity.
  - right. left. split; reflexivity.
Defined.

Section EntryGroups.

Lemma grows_cal (st st' : pstate) (i : nat) (g : list string) (x : string) :
  grows st st' -> cal_lst st !! i = Some (g ++ [x]) ->
  exists later, cal_lst st' !! i = Some (g ++ x :: later).
Proof.
  intros (_ & _ & Hc & _) H. destruct (Hc i _ H) as [later Hl].
  exists later. now rewrite Hl, <- app_assoc.
Qed.

Lemma grows_tag (st st' : pstate) (i : nat) (g : list string) (x : string) :
  grows st st' -> tag_lst st !! i = Some (g ++ [x]) ->
  exists later, tag_lst st' !! i = Some (g ++ x :: later).
Proof.
  intros (_ & _ & _ & Ht) H. destruct (Ht i _ H) as [later Hl].
  exists later. now rewrite Hl, <- app_assoc.
Qed.

(** The last state of the pass has all that an earlier one has. *)
Lemma state_after_grows_end (lines : list string) (k : nat) :
  grows (state_after lines k) (state_after lines (length lines)).
Proof.
  rewrite <- (rest_of_pass_state_after lines k).
  apply rest_of_pass_grows, state_after_well_formed.
Qed.


End EntryGroups.

(** C8.  Wherever the calibrator line ["1: cal_LN_HD12345 extra"] stands
    in the bounded lines of an input, with or without its newline, the
    entry [get_targets_calibrators_tags] returns has ["HD12345"] in the
    group of [CAL] that was current at the line, the one at the counter,
    right after the [g] that the group held, and ["LN"] at the same place
    in the same group of [TAG]. *)
Theorem calibrator_line_in_entry
    (input lines : list string) (k : nat) (line : string) :
  bounded_lines input = Ok lines ->
  lines !! k = Some line ->
  line = "1: cal_LN_HD12345 extra" \/ line = ln "1: cal_LN_HD12345 extra" ->
  exists entry g t later_cal later_tag,
    get_targets_calibrators_tags input = Ok entry
    /\ cal_lst (state_after lines k) !! counter (state_after lines k) = Some g
    /\ tag_lst (state_after lines k) !! counter (state_after lines k) = Some t
    /\ length g = length t
    /\ CAL entry !! counter (state_after lines k)
       = Some (g ++ "HD12345" :: later_cal)
    /\ TAG entry !! counter (state_after lines k)
       = Some (t ++ "LN" :: later_tag).
Proof.
  intros Hb Hk Hline.
  destruct (calibrator_line_recorded lines k line Hk Hline)
    as (g & t & Hg & Ht & Hg' & Ht' & _ & _).
  pose proof (state_after_grows_end lines (S k)) as Hgrow.
  destruct (grows_cal _ _ _ _ _ Hgrow Hg') as [later_cal Hc].
  destruct (grows_tag _ _ _ _ _ Hgrow Ht') as [later_tag Htg].
  destruct (state_after_well_formed lines k) as [Hpar _].
  exists (entry_of (state_after lines (length lines))), g, t,
    later_cal, later_tag.
  split.
  { rewrite (get_targets_rest input lines (length lines) Hb).
    now rewrite rest_of_pass_state_after. }
  repeat split; auto. exact (same_shape_lookup _ _ _ _ _ Hpar Hg Ht).
Qed.

Lemma calibrator_line_in_entry_witness :
  let input := [ln "night 1"; ln "7: HD 1 x"; ln "1: cal_LN_HD12345 extra";
                ln "2: cal_N_HD2 y"; ln "calibrator_find"] in
  let lines := [ln "7: HD 1 x"; ln "1: cal_LN_HD12345 extra";
                ln "2: cal_N_HD2 y"] in
  exists entry g t later_cal later_tag,
    get_targets_calibrators_tags input = Ok entry
    /\ cal_lst (state_after lines 1) !! counter (state_after lines 1) = Some g
    /\ tag_lst (state_after lines 1) !! counter (state_after lines 1) = Some t
    /\ length g = length t
    /\ CAL entry !! counter (state_after lines 1)
       = Some (g ++ "HD12345" :: later_cal)
    /\ TAG entry !! counter (state_after lines 1)
       = Some (t ++ "LN" :: later_tag).
Proof.
  apply (calibrator_line_in_entry
           [ln "night 1"; ln "7: HD 1 x"; ln "1: cal_LN_HD12345 extra";
            ln "2: cal_N_HD2 y"; ln "calibrator_find"]
           [ln "7: HD 1 x"; ln "1: cal_LN_HD12345 extra"; ln "2: cal_N_HD2 y"]
           1 (ln "1: cal_LN_HD12345 extra")).
  - vm_compute. reflexivity.
  - reflexivity.
  - right. reflexivity.
Defined.



(** C9, as stated, fails: for the empty identifier the input with one blank
    line has no marker line, and [get_file_section] raises [IndexError] on
    [line.split()[0]]. *)
Lemma get_file_section_blank_identifier :
  Forall (fun line => is_marker "" line <> Ok true) [nl]
  /\ count_markers "" [nl] = 0
  /\ get_file_section [nl] "" = Raise IndexError.
Proof.
  split; [repeat constructor; vm_compute; discriminate|].
  split; vm_compute; reflexivity.
Qed.

(** C9, amended.  For an identifier that has a character that is not
    whitespace, and an input none of whose lines is a marker line,
    [get_file_section] returns exactly one entry, labelled
    ["full_" + identifier], whose section is the whole input. *)
Theorem get_file_section_no_marker_keyword
    (lines : list string) (identifier : string) :
  nonblank identifier = true ->
  Forall (fun line => is_marker identifier line <> Ok true) lines ->
  get_file_section lines identifier = Ok [("full_" +:+ identifier, lines)].
Proof.
  intros Hid Hnone. apply get_file_section_no_marker.
  eapply Forall_impl; [exact Hnone|]. simpl. intros line Hline.
  destruct (is_marker_total identifier line Hid) as [[] Hb];
    [congruence | exact Hb].
Qed.

Lemma get_file_section_no_marker_keyword_witness :
  get_file_section [ln "header"; nl; ln "runs: none"; ln "1: HD 1 x"] "run"
  = Ok [("full_run", [ln "header"; nl; ln "runs: none"; ln "1: HD 1 x"])].
Proof.
  apply (get_file_section_no_marker_keyword
           [ln "header"; nl; ln "runs: none"; ln "1: HD 1 x"] "run").
  - reflexivity.
  - repeat constructor; vm_compute; discriminate.
Defined.
